(** * Solana-Transaction: the SOL transfer page (src/pages/index.jsx)

    A shallow embedding of the component [SolTransferApp]: its React state,
    its two validators, the two change handlers, the wallet connection and
    the submission flow [sendTransaction], together with the JavaScript
    built-ins the page relies on ([parseFloat], [isNaN], [>], [*],
    [Math.round], [String.prototype.includes]).

    Conventions of the model:
    - JavaScript numbers are IEEE 754 binary64 values; they are modelled
      with the Standard Library's [spec_float] at precision 53 and maximal
      exponent 1024, so the arithmetic of line 120 is computed bit for bit;
    - strings are byte strings;
    - a handler is a computation in a monad that threads the [useState]
      cells, logs the calls it makes in the order it makes them, and may
      throw; [await] is sequencing, a rejected promise is a throw at the
      [await];
    - what the wallet agent and the RPC node answer is a parameter of each
      handler (a [World]); what [@solana/web3.js] computes is a parameter
      of the whole development (the class [Web3]);
    - a handler runs to its end before the next user action is taken. *)

From Stdlib Require Import ZArith List Bool Ascii String Lia.
From Stdlib Require Import SpecFloat.
Import ListNotations.

Local Open Scope string_scope.
Local Open Scope Z_scope.

(** ** JavaScript built-ins *)
Module JS.

(** A JavaScript Number. *)
Definition number : Type := spec_float.

Definition prec : Z := 53.
Definition emax : Z := 1024.

Definition NaN : number := S754_nan.
Definition Infinity : number := S754_infinity false.

(** [isNaN(x)] *)
Definition isNaN (x : number) : bool :=
  match x with S754_nan => true | _ => false end.

(** [x > y]: false as soon as one side is NaN. *)
Definition gt (x y : number) : bool := SFltb y x.

(** [x * y] *)
Definition mul (x y : number) : number := SFmul prec emax x y.

(** The Number for an integer: round to nearest, ties to even. *)
Definition of_Z (n : Z) : number := binary_normalize prec emax n 0 false.

(** The literal [1e9]. *)
Definition lit_1e9 : number := Eval vm_compute in of_Z 1000000000.

(** *** Decimal literals: the grammar [StrDecimalLiteral] *)

Definition digit_of (c : ascii) : option Z :=
  let n := Z.of_nat (nat_of_ascii c) in
  if (48 <=? n) && (n <=? 57) then Some (n - 48) else None.

(** [DecimalDigits]: the longest run of digits in front of [s], as
    (value so far, number of digits read, rest). *)
Fixpoint digits (acc : Z) (cnt : Z) (s : string) : Z * Z * string :=
  match s with
  | String c s' =>
      match digit_of c with
      | Some d => digits (10 * acc + d) (cnt + 1) s'
      | None => (acc, cnt, s)
      end
  | EmptyString => (acc, cnt, s)
  end.

(** [ExponentPart], when one is in front of [s]: the exponent and the
    rest; an [e] that no digit follows is not part of the literal. *)
Definition exponent_part (s : string) : Z * string :=
  match s with
  | String c s1 =>
      if (Ascii.eqb c "e" || Ascii.eqb c "E")%bool then
        let '(neg, s2) :=
          match s1 with
          | String "+" r => (false, r)
          | String "-" r => (true, r)
          | _ => (false, s1)
          end in
        let '(v, cnt, s3) := digits 0 0 s2 in
        if cnt =? 0 then (0, s)
        else ((if neg then - v else v), s3)
      else (0, s)
  | EmptyString => (0, s)
  end.

(** What the longest prefix that is a [StrUnsignedDecimalLiteral]
    denotes. *)
Inductive literal : Type :=
| LitInfinity
| LitDecimal (m : Z) (e : Z).   (* the mathematical value m * 10^e *)

Definition unsigned_literal (s : string) : option literal :=
  if prefix "Infinity" s then Some LitInfinity
  else
    let '(ip, icnt, s1) := digits 0 0 s in
    match s1 with
    | String "." s2 =>
        let '(m, fcnt, s3) := digits ip 0 s2 in
        if (icnt =? 0) && (fcnt =? 0) then None
        else let '(ex, _) := exponent_part s3 in
             Some (LitDecimal m (ex - fcnt))
    | _ =>
        if icnt =? 0 then None
        else let '(ex, _) := exponent_part s1 in
             Some (LitDecimal ip ex)
    end.

(** The Number value for [m * 10^e] with sign [sgn]: the nearest
    binary64 value, ties to even, as the engines compute it for a literal
    of any length. *)
Definition round_decimal (sgn : bool) (m e : Z) : number :=
  if m =? 0 then S754_zero sgn
  else if 0 <=? e then
    binary_normalize prec emax ((if sgn then - m else m) * 10 ^ e) 0 false
  else
    let '(q, e', l) := SFdiv_core_binary prec emax m 0 (10 ^ (- e)) 0 in
    binary_round_aux prec emax sgn q e' l.

(** White space and line terminators that [parseFloat] skips in front
    of the literal (strings are byte strings: the ASCII ones). *)
Definition is_space (c : ascii) : bool :=
  let n := nat_of_ascii c in
  (Nat.eqb n 9 || Nat.eqb n 10 || Nat.eqb n 11 || Nat.eqb n 12
   || Nat.eqb n 13 || Nat.eqb n 32)%bool.

Fixpoint trim_start (s : string) : string :=
  match s with
  | String c s' => if is_space c then trim_start s' else s
  | EmptyString => s
  end.

(** [parseFloat(s)] *)
Definition parseFloat (s : string) : number :=
  let t := trim_start s in
  let '(sgn, u) :=
    match t with
    | String "+" r => (false, r)
    | String "-" r => (true, r)
    | _ => (false, t)
    end in
  match unsigned_literal u with
  | None => NaN
  | Some LitInfinity => S754_infinity sgn
  | Some (LitDecimal m e) => round_decimal sgn m e
  end.

(** *** [Math.round] *)

(** floor (x + 1/2) for x = (-1)^s * m * 2^(-k), with [k > 0]. *)
Definition round_half_up (s : bool) (m : positive) (k : Z) : Z :=
  (2 * (if s then Z.neg m else Z.pos m) + 2 ^ k) / 2 ^ (k + 1).

(** [Math.round(x)]: NaN, the infinities and the zeros are returned as
    they are, and so is an integral Number; otherwise the integral Number
    closest to [x], the one closer to +Infinity in a tie; the result is
    -0 when [-0.5 <= x < 0]. *)
Definition Math_round (x : number) : number :=
  match x with
  | S754_finite s m e =>
      if 0 <=? e then x
      else
        let n := round_half_up s m (- e) in
        if n =? 0 then S754_zero s
        else binary_normalize prec emax n 0 false
  | _ => x
  end.

(** The integer an integral Number stands for. *)
Definition to_Z (x : number) : option Z :=
  match x with
  | S754_zero _ => Some 0
  | S754_finite s m e =>
      let v := if s then Z.neg m else Z.pos m in
      if 0 <=? e then Some (v * 2 ^ e)
      else if Z.pos m mod 2 ^ (- e) =? 0 then Some (v / 2 ^ (- e))
      else None
  | _ => None
  end.

(** [s.includes(sub)] *)
Fixpoint includes (sub s : string) : bool :=
  (prefix sub s ||
   match s with
   | String _ s' => includes sub s'
   | EmptyString => false
   end)%bool.

End JS.

(** ** Results of calls that may throw, or of promises that may reject *)

(** What the page reads of a thrown value is its [message]; [None] stands
    for a thrown value whose [message] is undefined. In the [catch] block
    of the submission, which searches the message, a thrown null or
    undefined ends as such a value does, with a TypeError of another text;
    the two connection handlers meet the rejections of [connect] as
    [Thrown] values below. *)
Inductive Outcome (A : Type) : Type :=
| Returns (a : A)
| Throws (message : option string).
Arguments Returns {A} a.
Arguments Throws {A} message.

(** A value a promise is rejected with, for a [catch] block that reads
    [err.message] on it: on null and on undefined the read itself fails. *)
Inductive Thrown : Type :=
| thrown_null
| thrown_undefined
| thrown_object (message : option string).

(** What a promise settles to. *)
Inductive Settled (A : Type) : Type :=
| Resolved (a : A)
| Rejected (err : Thrown).
Arguments Resolved {A} a.
Arguments Rejected {A} err.

(** ** The part of [@solana/web3.js] the page calls *)

Class Web3 : Type := {
  PublicKey : Type;
  TransactionInstruction : Type;
  (** [new PublicKey(value)] for a string *)
  new_PublicKey : string -> Outcome PublicKey;
  (** [SystemProgram.transfer({fromPubkey, toPubkey, lamports})] *)
  SystemProgram_transfer :
    PublicKey -> PublicKey -> JS.number -> Outcome TransactionInstruction
}.

Section SolTransferApp.

Context {W : Web3}.

(** *** Data *)

(** The [useState] cells of the component. *)
Record State : Type := mkState {
  receiverAddress : string;
  amount : string;
  confirmation : string;
  wallet : option PublicKey;
  isLoading : bool;
  error : string;
  isAddressValid : bool;
  isAmountValid : bool
}.

(** The state of the first render. *)
Definition initialState : State :=
  {| receiverAddress := ""; amount := "0.01"; confirmation := "";
     wallet := None; isLoading := false; error := "";
     isAddressValid := true; isAmountValid := true |}.

(** [new Transaction()] and the fields the page assigns. *)
Record Transaction : Type := mkTransaction {
  instructions : list TransactionInstruction;
  feePayer : option PublicKey;
  recentBlockhash : option string
}.

(** What [signTransaction] resolves to: the page calls [serialize()]. *)
Record SignedTransaction : Type := mkSigned {
  serialize : Outcome (list Byte.byte)
}.

(** What [window.solana.connect] resolves to. *)
Record ConnectResponse : Type := mkResponse {
  publicKey : option PublicKey
}.

(** The wallet agent and the RPC node as one action of the page meets
    them: every call is made at most once per action, so an answer per
    call describes them. *)
Record World : Type := mkWorld {
  isPhantom : bool;
  connect : bool -> Settled ConnectResponse;   (* by [onlyIfTrusted] *)
  getLatestBlockhash : Outcome (string * Z);
  signTransaction : Transaction -> Outcome SignedTransaction;
  sendRawTransaction : list Byte.byte -> Outcome string;
  confirmTransaction : string -> string -> Z -> Outcome unit
}.

(** The calls a run makes, in the order it makes them. *)
Inductive Event : Type :=
| Call_validateAddress (address : string)
| Call_validateAmount (value : string)
| Call_connect (onlyIfTrusted : bool)
| Call_transfer (fromPubkey toPubkey : PublicKey) (lamports : JS.number)
| Call_getLatestBlockhash
| Call_signTransaction (tx : Transaction)
| Call_sendRawTransaction (raw : list Byte.byte)
| Call_confirmTransaction (signature blockhash : string)
                          (lastValidBlockHeight : Z).

(** *** The monad of the handlers: state, log of calls, exceptions *)

Definition M (A : Type) : Type := State -> Outcome A * State * list Event.

Definition ret {A} (a : A) : M A := fun st => (Returns a, st, []).

Definition bind {A B} (m : M A) (k : A -> M B) : M B :=
  fun st =>
    match m st with
    | (Returns a, st1, t1) =>
        let '(r, st2, t2) := k a st1 in (r, st2, (t1 ++ t2)%list)
    | (Throws e, st1, t1) => (Throws e, st1, t1)
    end.

Definition emit (e : Event) : M unit := fun st => (Returns tt, st, [e]).

Definition modify (f : State -> State) : M unit :=
  fun st => (Returns tt, f st, []).

(** A call whose result is used or awaited in place. *)
Definition lift {A} (o : Outcome A) : M A := fun st => (o, st, []).

Definition try_catch {A} (body : M A) (handler : option string -> M A)
  : M A :=
  fun st =>
    match body st with
    | (Returns a, st1, t1) => (Returns a, st1, t1)
    | (Throws e, st1, t1) =>
        let '(r, st2, t2) := handler e st1 in (r, st2, (t1 ++ t2)%list)
    end.

(** [try { before; x = await p; k x } catch (err) { handler err }]: the
    [catch] block gets the very value the promise was rejected with; what
    [before] or [k] throw reaches it as an object with that message. *)
Definition try_await_catch {A B} (before : M unit) (p : Settled A)
           (k : A -> M B) (handler : Thrown -> M B) : M B :=
  fun st =>
    match before st with
    | (Throws e, st1, t1) =>
        let '(r, st2, t2) := handler (thrown_object e) st1 in
        (r, st2, (t1 ++ t2)%list)
    | (Returns _, st1, t1) =>
        match p with
        | Rejected err =>
            let '(r, st2, t2) := handler err st1 in (r, st2, (t1 ++ t2)%list)
        | Resolved a =>
            match k a st1 with
            | (Returns b, st2, t2) => (Returns b, st2, (t1 ++ t2)%list)
            | (Throws e, st2, t2) =>
                let '(r, st3, t3) := handler (thrown_object e) st2 in
                (r, st3, (t1 ++ t2 ++ t3)%list)
            end
        end
    end.

(** [err.message] *)
Definition read_message (err : Thrown) : M (option string) :=
  match err with
  | thrown_object message => ret message
  | thrown_null =>
      lift (Throws (Some "Cannot read properties of null (reading 'message')"))
  | thrown_undefined =>
      lift (Throws (Some
        "Cannot read properties of undefined (reading 'message')"))
  end.

Definition try_finally {A} (body : M A) (fin : M unit) : M A :=
  fun st =>
    let '(r, st1, t1) := body st in
    match fin st1 with
    | (Returns _, st2, t2) => (r, st2, (t1 ++ t2)%list)
    | (Throws e, st2, t2) => (Throws e, st2, (t1 ++ t2)%list)
    end.

Definition state_of {A} (r : Outcome A * State * list Event) : State :=
  snd (fst r).
Definition trace_of {A} (r : Outcome A * State * list Event) : list Event :=
  snd r.
Definition outcome_of {A} (r : Outcome A * State * list Event) : Outcome A :=
  fst (fst r).

End SolTransferApp.

Declare Scope js_scope.
Delimit Scope js_scope with js.
Notation "x <- m ;; k" := (bind m (fun x => k))
  (at level 100, m at next level, right associativity) : js_scope.
Notation "' p <- m ;; k" := (bind m (fun p => k))
  (at level 100, p pattern, m at next level, right associativity) : js_scope.
Notation "m ;; k" := (bind m (fun _ => k))
  (at level 100, right associativity) : js_scope.

Section Handlers.

Context {W : Web3}.
Local Open Scope js_scope.

(** *** The setters *)

Definition setReceiverAddress (v : string) : M unit :=
  modify (fun st =>
    mkState v (amount st) (confirmation st) (wallet st) (isLoading st)
            (error st) (isAddressValid st) (isAmountValid st)).

Definition setAmount (v : string) : M unit :=
  modify (fun st =>
    mkState (receiverAddress st) v (confirmation st) (wallet st)
            (isLoading st) (error st) (isAddressValid st)
            (isAmountValid st)).

Definition setConfirmation (v : string) : M unit :=
  modify (fun st =>
    mkState (receiverAddress st) (amount st) v (wallet st) (isLoading st)
            (error st) (isAddressValid st) (isAmountValid st)).

Definition setWallet (v : option PublicKey) : M unit :=
  modify (fun st =>
    mkState (receiverAddress st) (amount st) (confirmation st) v
            (isLoading st) (error st) (isAddressValid st)
            (isAmountValid st)).

Definition setIsLoading (v : bool) : M unit :=
  modify (fun st =>
    mkState (receiverAddress st) (amount st) (confirmation st) (wallet st)
            v (error st) (isAddressValid st) (isAmountValid st)).

Definition setError (v : string) : M unit :=
  modify (fun st =>
    mkState (receiverAddress st) (amount st) (confirmation st) (wallet st)
            (isLoading st) v (isAddressValid st) (isAmountValid st)).

Definition setIsAddressValid (v : bool) : M unit :=
  modify (fun st =>
    mkState (receiverAddress st) (amount st) (confirmation st) (wallet st)
            (isLoading st) (error st) v (isAmountValid st)).

Definition setIsAmountValid (v : bool) : M unit :=
  modify (fun st =>
    mkState (receiverAddress st) (amount st) (confirmation st) (wallet st)
            (isLoading st) (error st) (isAddressValid st) v).

(** *** The wallet connection *)

Definition checkIfWalletIsConnected (w : World) : M unit :=
  if negb (isPhantom w) then ret tt
  else
    try_await_catch
      (emit (Call_connect true))
      (connect w true)
      (fun response =>
         match publicKey response with
         | Some pk => setWallet (Some pk)
         | None => ret tt
         end)
      (fun err =>
         (* line 43 compares [err.message], then only writes to the console *)
         _ <- read_message err ;;
         ret tt).

Definition connectWallet (w : World) : M unit :=
  if negb (isPhantom w) then
    setError "Phantom wallet not installed. Get it from https://phantom.app/"
  else
    try_finally
      (try_await_catch
         (setIsLoading true ;;
          emit (Call_connect false))
         (connect w false)
         (fun response =>
            setWallet (publicKey response) ;;
            setError "")
         (fun err =>
            message <- read_message err ;;
            setError ("Error connecting to wallet: "
                      ++ match message with
                         | Some m => m
                         | None => "undefined"
                         end)))
      (setIsLoading false).

(** *** The validators *)

Definition validateAddress (address : string) : M bool :=
  emit (Call_validateAddress address) ;;
  try_catch
    (_ <- lift (new_PublicKey address) ;;
     setIsAddressValid true ;;
     ret true)
    (fun _ => setIsAddressValid false ;; ret false).

(** The test of [validateAmount], without the setter. *)
Definition amountIsValid (value : string) : bool :=
  let floatValue := JS.parseFloat value in
  negb (JS.isNaN floatValue) && JS.gt floatValue (S754_zero false).

Definition validateAmount (value : string) : M bool :=
  emit (Call_validateAmount value) ;;
  let isValid := amountIsValid value in
  setIsAmountValid isValid ;;
  ret isValid.

(** *** The change handlers *)

Definition handleAddressChange (address : string) : M unit :=
  setReceiverAddress address ;;
  if negb (String.eqb address "") then
    (_ <- validateAddress address ;; ret tt)
  else ret tt.

Definition handleAmountChange (value : string) : M unit :=
  setAmount value ;;
  if negb (String.eqb value "") then
    (_ <- validateAmount value ;; ret tt)
  else ret tt.

(** *** The submission *)

(** Line 120: [Math.round(parseFloat(amount) * 1e9)]. *)
Definition toLamports (amount : string) : JS.number :=
  JS.Math_round (JS.mul (JS.parseFloat amount) JS.lit_1e9).

(** The [catch] block of [sendTransaction]. *)
Definition onSendError (message : option string) : M unit :=
  match message with
  | None =>
      (* [err.message.includes] on undefined *)
      lift (Throws (Some
        "Cannot read properties of undefined (reading 'includes')"))
  | Some m =>
      let errorMessage := "Transaction Failed" in
      let errorMessage :=
        if JS.includes "insufficient funds" m then
          "Insufficient funds for this transaction."
        else if JS.includes "invalid address" m then
          "Invalid wallet address."
        else if JS.includes "User rejected" m then
          "Transaction was rejected by the user."
        else errorMessage ++ ": " ++ m in
      setError errorMessage
  end.

Definition successPrefix : string := "âœ… Transaction Successful: ".

(** The [try] block of [sendTransaction]; the three values are the
    ones the closure captured at the render. *)
Definition sendBody (w : World) (wallet0 : PublicKey)
           (receiverAddress0 amount0 : string) : M unit :=
  let lamports := toLamports amount0 in
  toPubkey <- lift (new_PublicKey receiverAddress0) ;;
  emit (Call_transfer wallet0 toPubkey lamports) ;;
  ix <- lift (SystemProgram_transfer wallet0 toPubkey lamports) ;;
  let transaction := mkTransaction [ix] None None in
  let transaction :=
    mkTransaction (instructions transaction) (Some wallet0)
                  (recentBlockhash transaction) in
  emit Call_getLatestBlockhash ;;
  '(blockhash, lastValidBlockHeight) <- lift (getLatestBlockhash w) ;;
  let transaction :=
    mkTransaction (instructions transaction) (feePayer transaction)
                  (Some blockhash) in
  emit (Call_signTransaction transaction) ;;
  signed <- lift (signTransaction w transaction) ;;
  raw <- lift (serialize signed) ;;
  emit (Call_sendRawTransaction raw) ;;
  signature <- lift (sendRawTransaction w raw) ;;
  setConfirmation "Transaction submitted..." ;;
  emit (Call_confirmTransaction signature blockhash lastValidBlockHeight) ;;
  lift (confirmTransaction w signature blockhash lastValidBlockHeight) ;;
  setConfirmation (successPrefix ++ signature).

Definition sendTransaction (w : World) : M unit :=
  fun st0 =>
    (match wallet st0 with
     | None => setError "Please connect your wallet first."
     | Some wallet0 =>
         okAddress <- validateAddress (receiverAddress st0) ;;
         if negb okAddress then setError "Invalid receiver address."
         else
           okAmount <- validateAmount (amount st0) ;;
           if negb okAmount then setError "Invalid amount."
           else
             setIsLoading true ;;
             setError "" ;;
             setConfirmation "" ;;
             try_finally
               (try_catch
                  (sendBody w wallet0 (receiverAddress st0) (amount st0))
                  onSendError)
               (setIsLoading false)
     end) st0.

(** *** The page as the user drives it *)

(** [disabled] of the submit button (line 216). *)
Definition submitDisabled (st : State) : bool :=
  isLoading st || negb (isAddressValid st) || negb (isAmountValid st).

(** The inputs and the submit button are rendered only with a wallet
    (line 167); the connect button only without one. *)
Definition connected (st : State) : bool :=
  match wallet st with Some _ => true | None => false end.

Inductive reachable : State -> Prop :=
| reach_mount (w : World) :
    reachable (state_of (checkIfWalletIsConnected w initialState))
| reach_connect (w : World) (st : State) :
    reachable st -> connected st = false -> isLoading st = false ->
    reachable (state_of (connectWallet w st))
| reach_address (s : string) (st : State) :
    reachable st -> connected st = true ->
    reachable (state_of (handleAddressChange s st))
| reach_amount (s : string) (st : State) :
    reachable st -> connected st = true ->
    reachable (state_of (handleAmountChange s st))
| reach_send (w : World) (st : State) :
    reachable st -> connected st = true -> submitDisabled st = false ->
    reachable (state_of (sendTransaction w st)).

End Handlers.

(** ** An instance of the library interface, after web3.js 1.x *)
Module Bs58.

Definition ALPHABET : string :=
  "123456789ABCDEFGHJKLMNPQRSTUVWXYZabcdefghijkmnopqrstuvwxyz".

Fixpoint index_from (i : Z) (a : string) (c : ascii) : option Z :=
  match a with
  | String x a' => if Ascii.eqb x c then Some i else index_from (i + 1) a' c
  | EmptyString => None
  end.

(** The leading ['1'] characters, each of which decodes to a zero byte. *)
Fixpoint leading_ones (s : string) : nat * string :=
  match s with
  | String "1" s' => let '(n, r) := leading_ones s' in (S n, r)
  | _ => (O, s)
  end.

(** The digits in base 58, most significant first. *)
Fixpoint value (acc : Z) (s : string) : option Z :=
  match s with
  | String c s' =>
      match index_from 0 ALPHABET c with
      | Some d => value (58 * acc + d) s'
      | None => None
      end
  | EmptyString => Some acc
  end.

Definition byte_length (n : Z) : nat :=
  if n =? 0 then O else Z.to_nat (Z.log2 n / 8 + 1).

Definition byte_at (n : Z) (i : nat) : Byte.byte :=
  match Byte.of_N (Z.to_N ((n / 256 ^ Z.of_nat i) mod 256)) with
  | Some b => b
  | None => Byte.x00
  end.

(** [bs58.decode]: [None] when a character is outside the alphabet. *)
Definition decode (s : string) : option (list Byte.byte) :=
  let '(zeros, r) := leading_ones s in
  match value 0 r with
  | Some n =>
      Some (repeat Byte.x00 zeros
            ++ map (byte_at n) (rev (seq 0 (byte_length n))))%list
  | None => None
  end.

Record Key : Type := mkKey { key_bytes : list Byte.byte }.

Record Transfer : Type := mkTransfer {
  fromPubkey : Key;
  toPubkey : Key;
  lamports : Z
}.

(** [new PublicKey(string)]: the decoded length must be 32. *)
Definition newKey (s : string) : Outcome Key :=
  match decode s with
  | Some bs =>
      if Nat.eqb (List.length bs) 32 then Returns (mkKey bs)
      else Throws (Some "Invalid public key input")
  | None => Throws (Some "Non-base58 character")
  end.

(** [SystemProgram.transfer]: [BigInt(lamports)] throws on a Number that
    is not an integer. *)
Definition transfer (f t : Key) (n : JS.number) : Outcome Transfer :=
  match JS.to_Z n with
  | Some z => Returns (mkTransfer f t z)
  | None =>
      Throws (Some
        "The number cannot be converted to a BigInt because it is not an integer")
  end.

#[export] Instance web3 : Web3 :=
  {| PublicKey := Key;
     TransactionInstruction := Transfer;
     new_PublicKey := newKey;
     SystemProgram_transfer := transfer |}.

End Bs58.

(** ** Sample worlds, used to run the page on concrete inputs *)
Module Sample.

Import Bs58.

Definition systemProgram : string := "11111111111111111111111111111111".

Definition alice : Key := mkKey (repeat Byte.x01 32).

(** What [systemProgram] decodes to. *)
Definition systemKey : Key := mkKey (repeat Byte.x00 32).

Definition signedBytes : list Byte.byte := [Byte.x01; Byte.x02].

(** The wallet does not trust the page yet: the silent connection of the
    mount is refused, a click on the connect button is granted. *)
Definition connectAnswer (onlyIfTrusted : bool) : Settled (@ConnectResponse web3) :=
  if onlyIfTrusted then
    Rejected (thrown_object (Some "User rejected the request."))
  else Resolved (mkResponse (Some alice)).

(** Everything answers: the wallet connects and signs, the node accepts
    and confirms. *)
Definition happy : @World web3 :=
  {| isPhantom := true;
     connect := connectAnswer;
     getLatestBlockhash := Returns ("blockhash", 100);
     signTransaction := fun _ => Returns (mkSigned (Returns signedBytes));
     sendRawTransaction := fun _ => Returns "sig";
     confirmTransaction := fun _ _ _ => Returns tt |}.

(** The user declines in the wallet. *)
Definition declined : @World web3 :=
  {| isPhantom := true;
     connect := connectAnswer;
     getLatestBlockhash := Returns ("blockhash", 100);
     signTransaction := fun _ => Throws (Some "User rejected the request.");
     sendRawTransaction := fun _ => Returns "sig";
     confirmTransaction := fun _ _ _ => Returns tt |}.

(** How [confirmTransaction] rejects once the block height has passed
    [lastValidBlockHeight]. *)
Definition expiredMessage (signature : string) : string :=
  "Signature " ++ signature ++ " has expired: block height exceeded.".

(** The node accepts the transaction and never confirms it in time. *)
Definition expired : @World web3 :=
  {| isPhantom := true;
     connect := connectAnswer;
     getLatestBlockhash := Returns ("blockhash", 100);
     signTransaction := fun _ => Returns (mkSigned (Returns signedBytes));
     sendRawTransaction := fun _ => Returns "sig";
     confirmTransaction := fun s _ _ => Throws (Some (expiredMessage s)) |}.

(** The node accepts the transaction and the confirmation fails. *)
Definition unconfirmed (message : string) : @World web3 :=
  {| isPhantom := true;
     connect := connectAnswer;
     getLatestBlockhash := Returns ("blockhash", 100);
     signTransaction := fun _ => Returns (mkSigned (Returns signedBytes));
     sendRawTransaction := fun _ => Returns "sig";
     confirmTransaction := fun _ _ _ => Throws (Some message) |}.

(** The node refuses the transaction at the broadcast. *)
Definition refused (message : string) : @World web3 :=
  {| isPhantom := true;
     connect := connectAnswer;
     getLatestBlockhash := Returns ("blockhash", 100);
     signTransaction := fun _ => Returns (mkSigned (Returns signedBytes));
     sendRawTransaction := fun _ => Throws (Some message);
     confirmTransaction := fun _ _ _ => Returns tt |}.

(** The page after the mount and a click on the connect button. *)
Definition justConnected : @State web3 :=
  state_of (connectWallet happy
    (state_of (checkIfWalletIsConnected happy initialState))).

(** Then the system program's address is typed in. *)
Definition ready : @State web3 :=
  state_of (handleAddressChange systemProgram justConnected).

(** The same page with another amount typed in. *)
Definition readyWith (value : string) : @State web3 :=
  state_of (handleAmountChange value ready).

End Sample.

(** ** Reading a run *)

Section Runs.

Context {W : Web3}.

(** The place of a call in the submission. *)
Definition phase (e : Event) : nat :=
  match e with
  | Call_validateAddress _ => 0
  | Call_validateAmount _ => 1
  | Call_transfer _ _ _ => 2
  | Call_getLatestBlockhash => 3
  | Call_signTransaction _ => 4
  | Call_sendRawTransaction _ => 5
  | Call_confirmTransaction _ _ _ => 6
  | Call_connect _ => 7
  end.

(** The state a submission starts its [try] block in, once the wallet and
    both validators have let it pass. *)
Definition cleared (st : State) : State :=
  mkState (receiverAddress st) (amount st) "" (wallet st) true "" true true.

End Runs.

(** [N - 1/2 <= x < N + 1/2]: the integer [N] is the one closest to the
    finite number [x], the upper one when [x] lies halfway between two.
    Both sides are scaled by the power of two that clears the exponent. *)
Definition nearest_integer (x : JS.number) (N : Z) : Prop :=
  match x with
  | S754_zero _ => N = 0
  | S754_finite s m e =>
      let v := if s then Z.neg m else Z.pos m in
      (2 * N - 1) * 2 ^ Z.max (- e) 0
        <= 2 * v * 2 ^ Z.max e 0
        < (2 * N + 1) * 2 ^ Z.max (- e) 0
  | _ => False
  end.

(** What rounding a non-negative mantissa can give: a zero, an infinity,
    or a finite number whose mantissa has at most 53 bits; the sign is the
    one that was asked for. *)
Inductive rounded (s : bool) : spec_float -> Prop :=
| rounded_zero : rounded s (S754_zero s)
| rounded_infinity : rounded s (S754_infinity s)
| rounded_finite (m : positive) (e : Z) :
    Z.pos m < 2 ^ 53 -> rounded s (S754_finite s m e).

(** ** Notions used for the page as a whole *)

Section Page.

Context {W : Web3}.

(** What the two validity flags say about the two fields: a flag that is
    up stands over an empty field or over a text its validator accepts, a
    flag that is down over an empty field or over a text its validator
    refuses. *)
Definition flags_sound (st : State) : Prop :=
  (isAddressValid st = true ->
   receiverAddress st = ""
   \/ exists pk, new_PublicKey (receiverAddress st) = Returns pk)
  /\ (isAddressValid st = false ->
      receiverAddress st = ""
      \/ exists m, new_PublicKey (receiverAddress st) = Throws m)
  /\ (isAmountValid st = true ->
      amount st = "" \/ amountIsValid (amount st) = true)
  /\ (isAmountValid st = false -> amountIsValid (amount st) = false).

(** The form as the first render shows it. *)
Definition pristine (st : State) : Prop :=
  receiverAddress st = "" /\ amount st = "0.01" /\ confirmation st = ""
  /\ isAddressValid st = true /\ isAmountValid st = true.

End Page.

(** More worlds to run the page in. *)
Module MoreSamples.

Import Bs58.

(** No wallet extension in the browser. *)
Definition noPhantom : @World web3 :=
  {| isPhantom := false;
     connect := fun _ => Rejected (thrown_object None);
     getLatestBlockhash := Throws None;
     signTransaction := fun _ => Throws None;
     sendRawTransaction := fun _ => Throws None;
     confirmTransaction := fun _ _ _ => Throws None |}.



(** The wallet rejects the signature with a value that has no message. *)
Definition messageless : @World web3 :=
  {| isPhantom := true;
     connect := Sample.connectAnswer;
     getLatestBlockhash := Returns ("blockhash", 100);
     signTransaction := fun _ => Throws None;
     sendRawTransaction := fun _ => Returns "sig";
     confirmTransaction := fun _ _ _ => Returns tt |}.

End MoreSamples.

Ltac unfold_handlers :=
  unfold sendTransaction, sendBody, onSendError, handleAddressChange,
    handleAmountChange, validateAddress, validateAmount, connectWallet,
    checkIfWalletIsConnected, setReceiverAddress, setAmount, setConfirmation,
    setWallet, setIsLoading, setError, setIsAddressValid, setIsAmountValid,
    try_finally, try_catch, try_await_catch, read_message,
    bind, lift, emit, modify, ret,
    state_of, trace_of, outcome_of in *.

Arguments JS.includes : simpl never.
Arguments JS.parseFloat : simpl never.
Arguments JS.Math_round : simpl never.
Arguments JS.mul : simpl never.
Arguments toLamports : simpl never.
Arguments amountIsValid : simpl never.
Arguments String.append : simpl never.

(** One answer of the library, the wallet or the node at a time. *)
Ltac case_outcome :=
  match goal with
  | |- context [new_PublicKey ?a] => destruct (new_PublicKey a) eqn:?
  | |- context [SystemProgram_transfer ?a ?b ?c] =>
      destruct (SystemProgram_transfer a b c) eqn:?
  | |- context [getLatestBlockhash ?w] =>
      destruct (getLatestBlockhash w) as [[? ?]|?] eqn:?
  | |- context [signTransaction ?w ?t] =>
      destruct (signTransaction w t) eqn:?
  | |- context [serialize ?x] => destruct (serialize x) eqn:?
  | |- context [sendRawTransaction ?w ?r] =>
      destruct (sendRawTransaction w r) eqn:?
  | |- context [confirmTransaction ?w ?a ?b ?c] =>
      destruct (confirmTransaction w a b c) as [[]|?] eqn:?
  | |- context [connect ?w ?b] =>
      destruct (connect w b) as [?|[| |[?|]]] eqn:?
  | |- context [match ?m with Some _ => _ | None => _ end] =>
      is_var m; destruct m
  | |- context [JS.includes ?a ?b] => destruct (JS.includes a b) eqn:?
  end; cbn.

(** Membership in a trace that has been computed. *)
Ltac trace_member :=
  repeat match goal with
         | H : In _ _ |- _ => cbn in H
         | H : _ \/ _ |- _ => destruct H
         | H : False |- _ => contradiction
         | H : @eq Event _ _ |- _ => first [discriminate H | injection H as ?]
         end; subst.

(** ** Facts about binary64 arithmetic *)

Section Binary64.

Lemma digits2_pos_size (p : positive) : digits2_pos p = Pos.size p.
Proof. induction p; cbn; congruence. Qed.

Lemma digits2_pos_upper (p : positive) : Z.pos p < 2 ^ Z.pos (digits2_pos p).
Proof.
  rewrite digits2_pos_size, <- Pos2Z.inj_pow.
  apply Pos2Z.pos_lt_pos, Pos.size_gt.
Qed.

Lemma digits2_pos_lower (p : positive) :
  2 ^ Z.pos (digits2_pos p) <= 2 * Z.pos p.
Proof.
  rewrite digits2_pos_size, <- Pos2Z.inj_pow.
  change (2 * Z.pos p) with (Z.pos p~0).
  apply Pos2Z.pos_le_pos, Pos.size_le.
Qed.

Lemma Zdigits2_upper (m : Z) : 0 <= m -> m < 2 ^ Zdigits2 m.
Proof.
  destruct m as [|p|p]; intros H; cbn [Zdigits2].
  - reflexivity.
  - apply digits2_pos_upper.
  - lia.
Qed.

(** Shifting a mantissa to the left. *)
Lemma iter_xO_value (p k : positive) :
  Z.pos (Pos.iter xO p k) = Z.pos p * 2 ^ Z.pos k.
Proof.
  induction k using Pos.peano_ind.
  - cbn. lia.
  - rewrite Pos.iter_succ, Pos2Z.inj_succ, Z.pow_succ_r by lia.
    rewrite Pos2Z.inj_xO, IHk. lia.
Qed.

Lemma iter_xO_digits (p k : positive) :
  digits2_pos (Pos.iter xO p k) = (digits2_pos p + k)%positive.
Proof.
  induction k using Pos.peano_ind.
  - cbn. lia.
  - rewrite Pos.iter_succ. cbn [digits2_pos]. rewrite IHk. lia.
Qed.

(** Shifting a mantissa to the right. *)
Lemma shr_1_m (r : shr_record) :
  0 <= shr_m r -> shr_m (shr_1 r) = shr_m r / 2.
Proof.
  destruct r as [m b s]. cbn [shr_m]. intros H.
  destruct m as [|[p|p|]|p]; cbn [shr_1 shr_m];
    try reflexivity; try lia.
  - apply Z.div_unique with 1; lia.
  - apply Z.div_unique with 0; lia.
Qed.

Lemma iter_pos_shr_1_m (n : positive) (r : shr_record) :
  0 <= shr_m r ->
  shr_m (iter_pos shr_1 n r) = shr_m r / 2 ^ Z.pos n.
Proof.
  revert r. induction n as [n IH|n IH|]; intros r H; cbn [iter_pos].
  - assert (H1 : 0 <= shr_m (shr_1 r))
      by (rewrite shr_1_m by exact H; apply Z.div_pos; lia).
    assert (H2 : 0 <= shr_m (iter_pos shr_1 n (shr_1 r)))
      by (rewrite IH by exact H1; apply Z.div_pos; lia).
    rewrite IH by exact H2. rewrite IH by exact H1.
    rewrite shr_1_m by exact H.
    rewrite !Z.div_div by lia. f_equal.
    change 2 with (2 ^ 1) at 1.
    rewrite <- !Z.pow_add_r by lia. f_equal. lia.
  - assert (H2 : 0 <= shr_m (iter_pos shr_1 n r))
      by (rewrite IH by exact H; apply Z.div_pos; lia).
    rewrite IH by exact H2. rewrite IH by exact H.
    rewrite Z.div_div by lia. f_equal.
    rewrite <- Z.pow_add_r by lia. f_equal. lia.
  - rewrite shr_1_m by exact H. reflexivity.
Qed.

Lemma shr_record_of_loc_m (m : Z) (l : location) :
  shr_m (shr_record_of_loc m l) = m.
Proof. destruct l as [|[| |]]; reflexivity. Qed.

(** After the shift of [shr_fexp] a mantissa has at most 53 bits. *)
Lemma shr_fexp_mantissa (m e : Z) (l : location) :
  0 <= m ->
  0 <= shr_m (fst (shr_fexp JS.prec JS.emax m e l)) < 2 ^ 53.
Proof.
  intros Hm. unfold shr_fexp, shr.
  pose proof (Zdigits2_upper m Hm) as Hd.
  assert (Hn : Zdigits2 m - 53
               <= fexp JS.prec JS.emax (Zdigits2 m + e) - e)
    by (unfold fexp, JS.prec, JS.emax, emin; lia).
  destruct (fexp JS.prec JS.emax (Zdigits2 m + e) - e) as [|n|n] eqn:E;
    cbn [fst].
  - rewrite shr_record_of_loc_m. split; [exact Hm|].
    eapply Z.lt_le_trans; [exact Hd|]. apply Z.pow_le_mono_r; lia.
  - rewrite iter_pos_shr_1_m by (rewrite shr_record_of_loc_m; exact Hm).
    rewrite shr_record_of_loc_m. split; [apply Z.div_pos; lia|].
    apply Z.div_lt_upper_bound; [lia|].
    rewrite <- Z.pow_add_r by lia.
    eapply Z.lt_le_trans; [exact Hd|]. apply Z.pow_le_mono_r; lia.
  - rewrite shr_record_of_loc_m. split; [exact Hm|].
    eapply Z.lt_le_trans; [exact Hd|]. apply Z.pow_le_mono_r; lia.
Qed.

Lemma round_nearest_even_nonneg (m : Z) (l : location) :
  0 <= m -> 0 <= round_nearest_even m l.
Proof.
  intros H. destruct l as [|[| |]]; cbn [round_nearest_even]; try lia.
  destruct (Z.even m); lia.
Qed.

Lemma binary_round_aux_rounded (s : bool) (m e : Z) (l : location) :
  0 <= m -> rounded s (binary_round_aux JS.prec JS.emax s m e l).
Proof.
  intros Hm. unfold binary_round_aux.
  pose proof (shr_fexp_mantissa m e l Hm) as H1.
  destruct (shr_fexp JS.prec JS.emax m e l) as [mrs' e'] eqn:E1.
  cbn [fst] in H1.
  pose proof (shr_fexp_mantissa
                (round_nearest_even (shr_m mrs') (loc_of_shr_record mrs'))
                e' loc_Exact
                (round_nearest_even_nonneg _ _ (proj1 H1))) as H2.
  destruct (shr_fexp JS.prec JS.emax _ e' loc_Exact) as [mrs'' e''] eqn:E2.
  cbn [fst] in H2.
  destruct (shr_m mrs'') as [|p|p].
  - constructor.
  - destruct (e'' <=? JS.emax - JS.prec); constructor. apply H2.
  - lia.
Qed.

(** A mantissa of exactly 53 bits with an exponent in range is left as it
    is by the rounding. *)
Lemma binary_round_aux_canonical (s : bool) (m : positive) (e : Z) :
  Z.pos (digits2_pos m) = 53 -> -1074 <= e <= 971 ->
  binary_round_aux JS.prec JS.emax s (Z.pos m) e loc_Exact
  = S754_finite s m e.
Proof.
  intros Hd He.
  assert (Hf : fexp JS.prec JS.emax (Zdigits2 (Z.pos m) + e) - e = 0)
    by (cbn [Zdigits2]; rewrite Hd; unfold fexp, emin, JS.prec, JS.emax; lia).
  unfold binary_round_aux, shr_fexp. rewrite Hf.
  cbn [shr shr_record_of_loc shr_m loc_of_shr_record round_nearest_even].
  rewrite Hf. cbn [shr shr_record_of_loc shr_m].
  replace (e <=? JS.emax - JS.prec) with true; [reflexivity|].
  symmetry. apply Z.leb_le. unfold JS.emax, JS.prec. lia.
Qed.

(** The Number for a positive integer below 2^53 is that integer. *)
Lemma binary_normalize_exact (p : positive) :
  Z.pos p < 2 ^ 53 ->
  JS.to_Z (binary_normalize JS.prec JS.emax (Z.pos p) 0 false)
  = Some (Z.pos p).
Proof.
  intros Hp. cbn [binary_normalize]. unfold binary_round.
  pose proof (digits2_pos_lower p) as Hl.
  assert (Hd : Z.pos (digits2_pos p) <= 53).
  { apply Z.lt_succ_r. apply (Z.pow_lt_mono_r_iff 2); lia. }
  assert (Hf : fexp JS.prec JS.emax (Z.pos (digits2_pos p) + 0)
               = Z.pos (digits2_pos p) - 53)
    by (unfold fexp, emin, JS.prec, JS.emax; lia).
  rewrite Hf. unfold shl_align.
  destruct (Z.pos (digits2_pos p) - 53 - 0) as [|k|k] eqn:E.
  - rewrite binary_round_aux_canonical by lia.
    cbn [JS.to_Z Z.leb Z.compare]. rewrite Z.pow_0_r, Z.mul_1_r. reflexivity.
  - lia.
  - rewrite binary_round_aux_canonical;
      [|rewrite iter_xO_digits; lia|lia].
    unfold JS.to_Z.
    replace (0 <=? Z.pos (digits2_pos p) - 53) with false
      by (symmetry; apply Z.leb_gt; lia).
    replace (- (Z.pos (digits2_pos p) - 53)) with (Z.pos k) by lia.
    rewrite iter_xO_value.
    rewrite Z.mod_mul by lia. cbn [Z.eqb].
    rewrite Z.div_mul by lia. reflexivity.
Qed.

(** [Math.round] of a positive finite number of at most 53 bits is the
    closest integer. *)
Lemma Math_round_nearest (m : positive) (e : Z) :
  Z.pos m < 2 ^ 53 ->
  exists N,
    0 <= N
    /\ JS.to_Z (JS.Math_round (S754_finite false m e)) = Some N
    /\ nearest_integer (S754_finite false m e) N.
Proof.
  intros Hm. unfold JS.Math_round, nearest_integer.
  destruct (0 <=? e) eqn:He.
  - apply Z.leb_le in He. exists (Z.pos m * 2 ^ e).
    split; [apply Z.mul_nonneg_nonneg; [lia|apply Z.pow_nonneg; lia]|].
    split; [unfold JS.to_Z; rewrite (proj2 (Z.leb_le 0 e) He); reflexivity|].
    rewrite Z.max_r by lia. rewrite Z.max_l by lia. rewrite Z.pow_0_r. lia.
  - apply Z.leb_gt in He. unfold JS.round_half_up.
    set (k := - e). assert (Hk : 1 <= k) by (unfold k; lia).
    assert (HP : 2 <= 2 ^ k)
      by (change 2 with (2 ^ 1) at 1; apply Z.pow_le_mono_r; lia).
    assert (HD : 2 ^ (k + 1) = 2 * 2 ^ k)
      by (rewrite Z.pow_add_r by lia; change (2 ^ 1) with 2; lia).
    set (N := (2 * Z.pos m + 2 ^ k) / 2 ^ (k + 1)).
    assert (HN : 2 ^ (k + 1) * N <= 2 * Z.pos m + 2 ^ k
                 < 2 ^ (k + 1) * N + 2 ^ (k + 1)).
    { pose proof (Z.div_mod (2 * Z.pos m + 2 ^ k) (2 ^ (k + 1))) as Hdm.
      pose proof (Z.mod_pos_bound (2 * Z.pos m + 2 ^ k) (2 ^ (k + 1))) as Hb.
      fold N in Hdm. lia. }
    rewrite HD in HN.
    assert (HN0 : 0 <= N) by (apply Z.div_pos; lia).
    assert (HN53 : N < 2 ^ 53).
    { apply Z.div_lt_upper_bound; [lia|]. rewrite HD.
      change (2 ^ 53) with 9007199254740992 in *. nia. }
    exists N. split; [exact HN0|]. split.
    + destruct (N =? 0) eqn:E0.
      * apply Z.eqb_eq in E0. rewrite E0. reflexivity.
      * apply Z.eqb_neq in E0.
        destruct N as [|q|q] eqn:EN; [lia| |lia].
        apply binary_normalize_exact. exact HN53.
    + rewrite Z.max_l by lia. rewrite Z.max_r by lia.
      rewrite Z.pow_0_r. fold k. nia.
Qed.

End Binary64.

(** ** The submission *)

Section Submission.

Context {W : Web3}.

Lemma validateAddress_accepts (address : string) (pk : PublicKey) (st : State) :
  new_PublicKey address = Returns pk ->
  validateAddress address st =
    (Returns true,
     mkState (receiverAddress st) (amount st) (confirmation st) (wallet st)
             (isLoading st) (error st) true (isAmountValid st),
     [Call_validateAddress address]).
Proof. intros H. unfold_handlers. rewrite H. reflexivity. Qed.

Lemma validateAddress_refuses (address : string) (m : option string)
      (st : State) :
  new_PublicKey address = Throws m ->
  validateAddress address st =
    (Returns false,
     mkState (receiverAddress st) (amount st) (confirmation st) (wallet st)
             (isLoading st) (error st) false (isAmountValid st),
     [Call_validateAddress address]).
Proof. intros H. unfold_handlers. rewrite H. reflexivity. Qed.

(** Past the three guards the run is the [try] block started from the
    cleared state. *)
Lemma sendTransaction_past_guards (w : World) (st : State)
      (sender pk : PublicKey) :
  wallet st = Some sender ->
  new_PublicKey (receiverAddress st) = Returns pk ->
  amountIsValid (amount st) = true ->
  sendTransaction w st =
    let '(r, st', t) :=
      try_finally
        (try_catch (sendBody w sender (receiverAddress st) (amount st))
                   onSendError)
        (setIsLoading false) (cleared st) in
    (r, st',
     Call_validateAddress (receiverAddress st)
       :: Call_validateAmount (amount st) :: t).
Proof.
  intros Hw Ha Hv. unfold sendTransaction. rewrite Hw.
  unfold bind at 1. rewrite (validateAddress_accepts _ pk) by exact Ha.
  cbn [negb]. unfold bind at 1. unfold validateAmount.
  unfold_handlers. rewrite Hv. unfold cleared. cbn.
  repeat case_outcome; reflexivity.
Qed.

(** C1: with a wallet connected and inputs that pass validation, a
    submission makes its calls in this order, each one made exactly when
    the one before it has returned: validate address, validate amount,
    build the transfer from the connected wallet to the typed address,
    fetch the blockhash, ask the wallet to sign the transaction (fee payer
    = the wallet, with the fetched blockhash), broadcast what the signature
    serialized to, confirm. The run stops at the first call that throws:
    the trace of calls is given exactly for every place of the first
    failure, so that a declined or failed signature is never followed by a
    broadcast and a run in which nothing fails makes all seven calls. *)
Theorem sendTransaction_call_order (w : World) (st : State)
        (sender pk : PublicKey) :
  wallet st = Some sender ->
  new_PublicKey (receiverAddress st) = Returns pk ->
  amountIsValid (amount st) = true ->
  let tr := trace_of (sendTransaction w st) in
  let lamports := toLamports (amount st) in
  let validated :=
    [Call_validateAddress (receiverAddress st);
     Call_validateAmount (amount st);
     Call_transfer sender pk lamports] in
  (forall m,
      SystemProgram_transfer sender pk lamports = Throws m ->
      tr = validated)
  /\ (forall ix,
      SystemProgram_transfer sender pk lamports = Returns ix ->
      let built := (validated ++ [Call_getLatestBlockhash])%list in
      (forall m, getLatestBlockhash w = Throws m -> tr = built)
      /\ (forall blockhash height,
          getLatestBlockhash w = Returns (blockhash, height) ->
          let tx := mkTransaction [ix] (Some sender) (Some blockhash) in
          let asked := (built ++ [Call_signTransaction tx])%list in
          (forall m, signTransaction w tx = Throws m -> tr = asked)
          /\ (forall signed,
              signTransaction w tx = Returns signed ->
              (forall m, serialize signed = Throws m -> tr = asked)
              /\ (forall raw,
                  serialize signed = Returns raw ->
                  (forall m,
                      sendRawTransaction w raw = Throws m ->
                      tr = (asked ++ [Call_sendRawTransaction raw])%list)
                  /\ (forall signature,
                      sendRawTransaction w raw = Returns signature ->
                      tr = (asked
                            ++ [Call_sendRawTransaction raw;
                                Call_confirmTransaction signature blockhash
                                                        height])%list)))))
  /\ map phase tr = seq 0 (List.length tr)
  /\ (3 <= List.length tr)%nat
  /\ (forall f t l, In (Call_transfer f t l) tr ->
        f = sender /\ t = pk /\ l = toLamports (amount st))
  /\ (forall tx, In (Call_signTransaction tx) tr ->
        feePayer tx = Some sender
        /\ exists blockhash height,
             getLatestBlockhash w = Returns (blockhash, height)
             /\ recentBlockhash tx = Some blockhash)
  /\ (forall raw, In (Call_sendRawTransaction raw) tr ->
        exists tx signed,
          In (Call_signTransaction tx) tr
          /\ signTransaction w tx = Returns signed
          /\ serialize signed = Returns raw)
  /\ (forall tx m, In (Call_signTransaction tx) tr ->
        signTransaction w tx = Throws m ->
        forall raw, ~ In (Call_sendRawTransaction raw) tr).
Proof.
  intros Hw Ha Hv tr lamports validated. subst tr lamports validated.
  rewrite (sendTransaction_past_guards w st sender pk Hw Ha Hv).
  split; [|split].
  - intros m Ht. unfold_handlers. rewrite Ha. cbn. rewrite Ht. cbn.
    repeat case_outcome; reflexivity.
  - intros ix Ht built. subst built. split.
    + intros m Hg. unfold_handlers. rewrite Ha. cbn. rewrite Ht. cbn.
      rewrite Hg. cbn. repeat case_outcome; reflexivity.
    + intros blockhash height Hg tx asked. subst tx asked. split.
      * intros m Hs. unfold_handlers. rewrite Ha. cbn. rewrite Ht. cbn.
        rewrite Hg. cbn. rewrite Hs. cbn. repeat case_outcome; reflexivity.
      * intros signed Hs. split.
        -- intros m Hz. unfold_handlers. rewrite Ha. cbn. rewrite Ht. cbn.
           rewrite Hg. cbn. rewrite Hs. cbn. rewrite Hz. cbn.
           repeat case_outcome; reflexivity.
        -- intros raw Hz. split.
           ++ intros m Hb. unfold_handlers. rewrite Ha. cbn. rewrite Ht. cbn.
              rewrite Hg. cbn. rewrite Hs. cbn. rewrite Hz. cbn.
              rewrite Hb. cbn. repeat case_outcome; reflexivity.
           ++ intros signature Hb. unfold_handlers. rewrite Ha. cbn.
              rewrite Ht. cbn. rewrite Hg. cbn. rewrite Hs. cbn.
              rewrite Hz. cbn. rewrite Hb. cbn.
              repeat case_outcome; reflexivity.
  - unfold_handlers. rewrite Ha. cbn.
    repeat case_outcome;
      (split; [reflexivity|]); (split; [cbn; lia|]);
      (split; [intros f t l Hin; trace_member; auto|]);
      (split; [intros tx Hin; trace_member; (split; [reflexivity|eauto])|]);
      (split; [intros raw Hin; trace_member; eauto 10|]);
      intros tx m Hin Hs raw Hin';
      trace_member; cbn in *; congruence.
Qed.

(** C2: without a connected wallet a submission stops at once with the
    no-wallet error: it makes no call at all, so none to the ledger client,
    and it leaves every other cell of the state as it was. *)
Theorem sendTransaction_without_wallet (w : World) (st : State) :
  wallet st = None ->
  let r := sendTransaction w st in
  outcome_of r = Returns tt
  /\ trace_of r = []
  /\ error (state_of r) = "Please connect your wallet first."
  /\ receiverAddress (state_of r) = receiverAddress st
  /\ amount (state_of r) = amount st
  /\ confirmation (state_of r) = confirmation st
  /\ wallet (state_of r) = wallet st
  /\ isLoading (state_of r) = isLoading st
  /\ isAddressValid (state_of r) = isAddressValid st
  /\ isAmountValid (state_of r) = isAmountValid st.
Proof.
  intros Hw r.
  assert (E : r = setError "Please connect your wallet first." st)
    by (subst r; unfold sendTransaction; rewrite Hw; reflexivity).
  rewrite E. cbn. repeat split.
Qed.

(** C3: with a wallet connected the address is validated first. An invalid
    address ends the run with the invalid-address error after the single
    call of the address validator: the amount validator is not called and
    its flag keeps its value. A valid address with an invalid amount ends
    the run with the invalid-amount error after the two validator calls.
    Neither run fetches a blockhash or makes any other call. *)
Theorem sendTransaction_validation_order (w : World) (st : State)
        (sender : PublicKey) :
  wallet st = Some sender ->
  (forall m,
      new_PublicKey (receiverAddress st) = Throws m ->
      let r := sendTransaction w st in
      outcome_of r = Returns tt
      /\ trace_of r = [Call_validateAddress (receiverAddress st)]
      /\ error (state_of r) = "Invalid receiver address."
      /\ isAddressValid (state_of r) = false
      /\ isAmountValid (state_of r) = isAmountValid st
      /\ confirmation (state_of r) = confirmation st
      /\ isLoading (state_of r) = isLoading st)
  /\ (forall pk,
      new_PublicKey (receiverAddress st) = Returns pk ->
      amountIsValid (amount st) = false ->
      let r := sendTransaction w st in
      outcome_of r = Returns tt
      /\ trace_of r = [Call_validateAddress (receiverAddress st);
                       Call_validateAmount (amount st)]
      /\ error (state_of r) = "Invalid amount."
      /\ isAddressValid (state_of r) = true
      /\ isAmountValid (state_of r) = false
      /\ confirmation (state_of r) = confirmation st
      /\ isLoading (state_of r) = isLoading st).
Proof.
  intros Hw. split.
  - intros m Ha r.
    assert (E : r = (Returns tt,
                     mkState (receiverAddress st) (amount st)
                             (confirmation st) (wallet st) (isLoading st)
                             "Invalid receiver address." false
                             (isAmountValid st),
                     [Call_validateAddress (receiverAddress st)])).
    { subst r. unfold sendTransaction. rewrite Hw.
      unfold bind at 1. rewrite (validateAddress_refuses _ m) by exact Ha.
      cbn. now rewrite Hw. }
    rewrite E. cbn. repeat split.
  - intros pk Ha Hv r.
    assert (E : r = (Returns tt,
                     mkState (receiverAddress st) (amount st)
                             (confirmation st) (wallet st) (isLoading st)
                             "Invalid amount." true false,
                     [Call_validateAddress (receiverAddress st);
                      Call_validateAmount (amount st)])).
    { subst r. unfold sendTransaction. rewrite Hw.
      unfold bind at 1. rewrite (validateAddress_accepts _ pk) by exact Ha.
      unfold_handlers. cbn. rewrite Hv. cbn. now rewrite Hw. }
    rewrite E. cbn. repeat split.
Qed.

(** C6, as the code has it: an edit of the address or of the amount
    stores the new text; when the text is not empty it calls that field's
    validator once and sets the field's validity flag to the verdict, when
    it is empty it calls no validator and keeps the flag. It changes
    nothing else: the error and the confirmation messages stay as they
    were, and so do the busy flag, the other field with its flag, and the
    connected wallet. *)
Theorem edit_keeps_messages (s : string) (st : State) :
  (let r := handleAddressChange s st in
   let st' := state_of r in
   outcome_of r = Returns tt
   /\ receiverAddress st' = s
   /\ (s = "" -> trace_of r = [] /\ isAddressValid st' = isAddressValid st)
   /\ (s <> "" ->
       trace_of r = [Call_validateAddress s]
       /\ (isAddressValid st' = true
           <-> exists pk, new_PublicKey s = Returns pk))
   /\ error st' = error st
   /\ confirmation st' = confirmation st
   /\ wallet st' = wallet st
   /\ isLoading st' = isLoading st
   /\ amount st' = amount st
   /\ isAmountValid st' = isAmountValid st)
  /\ (let r := handleAmountChange s st in
      let st' := state_of r in
      outcome_of r = Returns tt
      /\ amount st' = s
      /\ (s = "" -> trace_of r = [] /\ isAmountValid st' = isAmountValid st)
      /\ (s <> "" ->
          trace_of r = [Call_validateAmount s]
          /\ isAmountValid st' = amountIsValid s)
      /\ error st' = error st
      /\ confirmation st' = confirmation st
      /\ wallet st' = wallet st
      /\ isLoading st' = isLoading st
      /\ receiverAddress st' = receiverAddress st
      /\ isAddressValid st' = isAddressValid st).
Proof.
  split.
  - unfold_handlers. cbn. destruct (String.eqb s "") eqn:E; cbn.
    + apply String.eqb_eq in E.
      split; [reflexivity|]. split; [reflexivity|].
      split; [intros _; split; reflexivity|].
      split; [intros Hne; contradiction|]. repeat split.
    + apply String.eqb_neq in E.
      destruct (new_PublicKey s) as [pk|m] eqn:Ha; cbn;
        (split; [reflexivity|]); (split; [reflexivity|]);
        (split; [intros He; contradiction|]);
        (split; [intros _; split; [reflexivity|]|repeat split]).
      * split; [intros _; exists pk; reflexivity|reflexivity].
      * split; [discriminate|intros [pk Hpk]; discriminate Hpk].
  - unfold_handlers. cbn. destruct (String.eqb s "") eqn:E; cbn.
    + apply String.eqb_eq in E.
      split; [reflexivity|]. split; [reflexivity|].
      split; [intros _; split; reflexivity|].
      split; [intros Hne; contradiction|]. repeat split.
    + apply String.eqb_neq in E.
      split; [reflexivity|]. split; [reflexivity|].
      split; [intros He; contradiction|].
      split; [intros _; split; reflexivity|]. repeat split.
Qed.

(** C10: an edit to the empty string runs no validator and leaves the
    field's validity flag at its previous value; both flags start at true,
    so after the wallet has connected the submit button is rendered and
    enabled while the address field is still empty. *)
Theorem empty_edit_keeps_flag (pk : PublicKey) :
  (forall st,
      trace_of (handleAddressChange "" st) = []
      /\ receiverAddress (state_of (handleAddressChange "" st)) = ""
      /\ isAddressValid (state_of (handleAddressChange "" st))
         = isAddressValid st)
  /\ (forall st,
      trace_of (handleAmountChange "" st) = []
      /\ amount (state_of (handleAmountChange "" st)) = ""
      /\ isAmountValid (state_of (handleAmountChange "" st))
         = isAmountValid st)
  /\ isAddressValid initialState = true
  /\ isAmountValid initialState = true
  /\ exists st,
      reachable st /\ wallet st = Some pk /\ receiverAddress st = ""
      /\ submitDisabled st = false.
Proof.
  split; [|split; [|split; [|split]]]; try reflexivity.
  - intros st. repeat split.
  - intros st. repeat split.
  - set (w := mkWorld true
                (fun t => if t then Rejected (thrown_object None)
                          else Resolved (mkResponse (Some pk)))
                (Throws None) (fun _ => Throws None) (fun _ => Throws None)
                (fun _ _ _ => Throws None)).
    exists (state_of (handleAddressChange ""
              (state_of (connectWallet w
                 (state_of (checkIfWalletIsConnected w initialState)))))).
    split; [|repeat split].
    apply reach_address; [apply reach_connect; [apply reach_mount| |] |];
      reflexivity.
Qed.

(** C7, as the code has it: when the [try] block of a submission throws a
    value whose message is the string [m], the error shown is chosen by the
    first substring that occurs in [m], in this order: "insufficient funds"
    gives the insufficient-funds text, then "invalid address" gives the
    invalid-wallet-address text, then "User rejected" gives the
    rejected-by-user text; a message with none of the three gives
    "Transaction Failed: " followed by the message. *)
Theorem failure_classification (w : World) (st : State)
        (sender pk : PublicKey) (m : string) :
  wallet st = Some sender ->
  new_PublicKey (receiverAddress st) = Returns pk ->
  amountIsValid (amount st) = true ->
  outcome_of (sendBody w sender (receiverAddress st) (amount st) (cleared st))
    = Throws (Some m) ->
  let e := error (state_of (sendTransaction w st)) in
  (JS.includes "insufficient funds" m = true ->
   e = "Insufficient funds for this transaction.")
  /\ (JS.includes "insufficient funds" m = false ->
      JS.includes "invalid address" m = true ->
      e = "Invalid wallet address.")
  /\ (JS.includes "insufficient funds" m = false ->
      JS.includes "invalid address" m = false ->
      JS.includes "User rejected" m = true ->
      e = "Transaction was rejected by the user.")
  /\ (JS.includes "insufficient funds" m = false ->
      JS.includes "invalid address" m = false ->
      JS.includes "User rejected" m = false ->
      e = "Transaction Failed: " ++ m).
Proof.
  intros Hw Ha Hv Hthrow e. subst e.
  rewrite (sendTransaction_past_guards w st sender pk Hw Ha Hv).
  unfold try_finally, try_catch.
  destruct (sendBody w sender (receiverAddress st) (amount st) (cleared st))
    as [[o st1] t1].
  cbn in Hthrow. subst o. unfold onSendError, setError, setIsLoading, modify.
  cbn. unfold state_of. cbn.
  destruct (JS.includes "insufficient funds" m);
    destruct (JS.includes "invalid address" m);
    destruct (JS.includes "User rejected" m);
    cbn; repeat split; intros; try reflexivity; try discriminate.
Qed.

(** C8, as the code has it: when the broadcast is accepted and
    [confirmTransaction] then rejects, as it does once the block height has
    passed [lastValidBlockHeight], the run never shows the success message:
    the confirmation text stays at the interim "Transaction submitted...",
    the busy flag is released, and the error is the one every failure of
    the [try] block gets, "Transaction Failed: " followed by the raw
    message when none of the three substrings occurs in it. *)
Theorem confirmation_failure (w : World) (st : State)
        (sender pk : PublicKey) (ix : TransactionInstruction)
        (blockhash : string) (height : Z) (signed : SignedTransaction)
        (raw : list Byte.byte) (signature m : string) :
  wallet st = Some sender ->
  new_PublicKey (receiverAddress st) = Returns pk ->
  amountIsValid (amount st) = true ->
  SystemProgram_transfer sender pk (toLamports (amount st)) = Returns ix ->
  getLatestBlockhash w = Returns (blockhash, height) ->
  signTransaction w (mkTransaction [ix] (Some sender) (Some blockhash))
    = Returns signed ->
  serialize signed = Returns raw ->
  sendRawTransaction w raw = Returns signature ->
  confirmTransaction w signature blockhash height = Throws (Some m) ->
  let st' := state_of (sendTransaction w st) in
  confirmation st' = "Transaction submitted..."
  /\ confirmation st' <> successPrefix ++ signature
  /\ isLoading st' = false
  /\ error st' <> ""
  /\ (JS.includes "insufficient funds" m = false ->
      JS.includes "invalid address" m = false ->
      JS.includes "User rejected" m = false ->
      error st' = "Transaction Failed: " ++ m).
Proof.
  intros Hw Ha Hv Hix Hbh Hsign Hser Hsend Hconf st'. subst st'.
  rewrite (sendTransaction_past_guards w st sender pk Hw Ha Hv).
  unfold_handlers. rewrite Ha. cbn. rewrite Hix. cbn. rewrite Hbh. cbn.
  rewrite Hsign. cbn. rewrite Hser. cbn. rewrite Hsend. cbn.
  rewrite Hconf. cbn.
  destruct (JS.includes "insufficient funds" m);
    destruct (JS.includes "invalid address" m);
    destruct (JS.includes "User rejected" m);
    cbn; repeat split; intros; try reflexivity; try discriminate.
Qed.

(** C5, as the code has it: a submission that passes the wallet and the
    validation guards clears both messages before its [try] block, so what
    it leaves in them does not depend on what they held before. When it
    fails before the broadcast has been accepted, the confirmation message
    is left empty and the error message non-empty, except when the value
    thrown has no message: then the [catch] block itself fails and both
    messages are left empty. When the confirmation is acknowledged only the
    confirmation message is left non-empty, carrying the signature. *)
Theorem submission_messages (w : World) (st : State)
        (sender pk : PublicKey) :
  wallet st = Some sender ->
  new_PublicKey (receiverAddress st) = Returns pk ->
  amountIsValid (amount st) = true ->
  let r := sendTransaction w st in
  (forall st2,
      receiverAddress st2 = receiverAddress st ->
      amount st2 = amount st ->
      wallet st2 = wallet st ->
      error (state_of (sendTransaction w st2)) = error (state_of r)
      /\ confirmation (state_of (sendTransaction w st2))
         = confirmation (state_of r))
  /\ ((forall s b h, ~ In (Call_confirmTransaction s b h) (trace_of r)) ->
      confirmation (state_of r) = ""
      /\ ((exists m,
             outcome_of (sendBody w sender (receiverAddress st) (amount st)
                                  (cleared st)) = Throws (Some m)
             /\ outcome_of r = Returns tt
             /\ error (state_of r) <> "")
          \/ (outcome_of (sendBody w sender (receiverAddress st) (amount st)
                                   (cleared st)) = Throws None
              /\ (exists e, outcome_of r = Throws e)
              /\ error (state_of r) = "")))
  /\ (forall s b h,
      In (Call_confirmTransaction s b h) (trace_of r) ->
      confirmTransaction w s b h = Returns tt ->
      error (state_of r) = ""
      /\ confirmation (state_of r) = successPrefix ++ s).
Proof.
  intros Hw Ha Hv r. subst r. split; [|split].
  - intros st2 H1 H2 H3.
    rewrite (sendTransaction_past_guards w st sender pk Hw Ha Hv).
    rewrite (sendTransaction_past_guards w st2 sender pk);
      [|congruence|congruence|congruence].
    unfold cleared. rewrite H1, H2, H3.
    destruct (try_finally _ _ _) as [[o s'] t]. split; reflexivity.
  - rewrite (sendTransaction_past_guards w st sender pk Hw Ha Hv).
    unfold_handlers. rewrite Ha. cbn.
    repeat case_outcome; intros Hno;
      try (exfalso; eapply Hno; cbn; eauto 10; fail);
      (split; [reflexivity|]);
      first [ left; eexists; split; [reflexivity|];
              split; [reflexivity|discriminate]
            | right; split; [reflexivity|];
              split; [eexists; reflexivity|reflexivity] ].
  - rewrite (sendTransaction_past_guards w st sender pk Hw Ha Hv).
    unfold_handlers. rewrite Ha. cbn.
    repeat case_outcome; intros sg bh hh Hin Hc; trace_member;
      try congruence; split; reflexivity.
Qed.

End Submission.

(** ** The conversion to lamports *)

Section Lamports.

Context {W : Web3}.

(** A valid amount parses to +Infinity or to a positive finite number. *)
Lemma amountIsValid_positive (s : string) :
  amountIsValid s = true ->
  JS.parseFloat s = JS.Infinity
  \/ exists m e, JS.parseFloat s = S754_finite false m e.
Proof.
  unfold amountIsValid, JS.gt, SFltb, SFcompare, JS.isNaN, JS.Infinity.
  destruct (JS.parseFloat s) as [[|]|[|]| |[|] m e]; cbn;
    intros H; try discriminate H; eauto.
Qed.

Lemma mul_1e9_rounded (m : positive) (e : Z) :
  rounded false (JS.mul (S754_finite false m e) JS.lit_1e9).
Proof.
  unfold JS.mul, JS.lit_1e9. cbn [SFmul xorb].
  apply binary_round_aux_rounded. lia.
Qed.

(** The two ways the conversion of a valid amount can end. *)
Lemma toLamports_cases (s : string) :
  amountIsValid s = true ->
  let p := JS.mul (JS.parseFloat s) JS.lit_1e9 in
  (p = JS.Infinity /\ toLamports s = JS.Infinity)
  \/ (p <> JS.Infinity
      /\ exists N, 0 <= N /\ JS.to_Z (toLamports s) = Some N
                   /\ nearest_integer p N).
Proof.
  intros Hv p. subst p. unfold toLamports.
  destruct (amountIsValid_positive s Hv) as [E|[m [e E]]]; rewrite E.
  - left. split; reflexivity.
  - destruct (mul_1e9_rounded m e) as [| |m' e' Hm'].
    + right. split; [discriminate|]. exists 0. repeat split; lia.
    + left. split; reflexivity.
    + right. split; [discriminate|]. apply Math_round_nearest. exact Hm'.
Qed.

(** Every transfer a submission builds carries the conversion of the
    amount it was started with. *)
Lemma transfer_lamports (w : World) (st : State) (f t : PublicKey)
      (l : JS.number) :
  In (Call_transfer f t l) (trace_of (sendTransaction w st)) ->
  l = toLamports (amount st).
Proof.
  unfold_handlers. destruct (wallet st); cbn; [|contradiction].
  destruct (new_PublicKey (receiverAddress st)) eqn:Ha; cbn;
    [|intros H; trace_member].
  destruct (amountIsValid (amount st)); cbn; [|intros H; trace_member].
  repeat case_outcome; intros H; trace_member; reflexivity.
Qed.

(** C4, as the code has it: for every amount the validator accepts, the
    lamports are [Math.round] of the binary64 product of the parsed value
    and 1e9. When that product is finite they are the integer closest to
    it, the upper one in a tie, hence an integer count; when the product
    has overflowed to +Infinity they are +Infinity. The count depends on
    the amount string alone: two submissions started with the same amount
    build transfers of the same count, whatever the wallet and the node
    answer. The amount "0.01" gives exactly 10,000,000. *)
Theorem toLamports_rounds_to_nearest :
  (forall s,
      amountIsValid s = true ->
      let p := JS.mul (JS.parseFloat s) JS.lit_1e9 in
      (p <> JS.Infinity ->
       exists N, 0 <= N /\ JS.to_Z (toLamports s) = Some N
                 /\ nearest_integer p N)
      /\ (p = JS.Infinity -> toLamports s = JS.Infinity))
  /\ (forall w1 w2 st1 st2 f1 t1 l1 f2 t2 l2,
      amount st1 = amount st2 ->
      In (Call_transfer f1 t1 l1) (trace_of (sendTransaction w1 st1)) ->
      In (Call_transfer f2 t2 l2) (trace_of (sendTransaction w2 st2)) ->
      l1 = l2)
  /\ amountIsValid "0.01" = true
  /\ JS.to_Z (toLamports "0.01") = Some 10000000.
Proof.
  split; [|split; [|split]].
  - intros s Hv p.
    destruct (toLamports_cases s Hv) as [[Hp Hl]|[Hp HN]]; fold p in Hp;
      split; intros H; try contradiction; assumption.
  - intros w1 w2 st1 st2 f1 t1 l1 f2 t2 l2 Ha H1 H2.
    apply transfer_lamports in H1. apply transfer_lamports in H2.
    congruence.
  - vm_compute. reflexivity.
  - vm_compute. reflexivity.
Qed.

(** C9, as the code has it: for every amount the validator accepts the
    conversion returns a value without raising; the value is a
    non-negative integer count of lamports unless the parsed value times
    1e9 overflows to +Infinity, in which case the conversion is +Infinity
    as well. *)
Theorem toLamports_of_valid_amount (s : string) :
  amountIsValid s = true ->
  let p := JS.mul (JS.parseFloat s) JS.lit_1e9 in
  (p = JS.Infinity -> toLamports s = JS.Infinity)
  /\ (p <> JS.Infinity ->
      exists N, 0 <= N /\ JS.to_Z (toLamports s) = Some N).
Proof.
  intros Hv p.
  destruct (toLamports_cases s Hv) as [[Hp Hl]|[Hp [N [HN [Hz _]]]]];
    fold p in Hp; split; intros H; try contradiction; eauto.
Qed.

End Lamports.

(** ** The page run on concrete inputs *)

Section Scenarios.

Import Bs58.

(** The amount the page starts with, as a binary64 value, and its
    conversion. *)
Example parseFloat_default_amount :
  JS.parseFloat "0.01" = S754_finite false 5764607523034235 (-59)
  /\ JS.mul (JS.parseFloat "0.01") JS.lit_1e9
     = S754_finite false 5368709120000000 (-29).
Proof. vm_compute. split; reflexivity. Qed.

Example parseFloat_prefix_and_garbage :
  JS.parseFloat "  12.5abc" = S754_finite false 7036874417766400 (-49)
  /\ JS.parseFloat "abc" = JS.NaN
  /\ JS.parseFloat "" = JS.NaN
  /\ amountIsValid "0" = false
  /\ amountIsValid "-1" = false
  /\ amountIsValid "abc" = false.
Proof. vm_compute. repeat split. Qed.

Example system_program_address :
  newKey Sample.systemProgram = Returns Sample.systemKey
  /\ newKey "not-an-address" = Throws (Some "Non-base58 character").
Proof. vm_compute. split; reflexivity. Qed.

(** The whole flow when everything answers. *)
Example happy_submission :
  let r := sendTransaction Sample.happy Sample.ready in
  outcome_of r = Returns tt
  /\ map phase (trace_of r) = [0; 1; 2; 3; 4; 5; 6]%nat
  /\ error (state_of r) = ""
  /\ confirmation (state_of r) = successPrefix ++ "sig"
  /\ isLoading (state_of r) = false.
Proof. vm_compute. repeat split. Qed.

Lemma ready_reachable : reachable Sample.ready.
Proof.
  unfold Sample.ready. apply reach_address; [|reflexivity].
  unfold Sample.justConnected.
  apply reach_connect; [apply reach_mount|reflexivity|reflexivity].
Qed.

Lemma sendTransaction_call_order_witness :
  wallet Sample.ready = Some Sample.alice
  /\ new_PublicKey (receiverAddress Sample.ready) = Returns Sample.systemKey
  /\ amountIsValid (amount Sample.ready) = true
  /\ (let ix := mkTransfer Sample.alice Sample.systemKey 10000000 in
      let tx := mkTransaction [ix] (Some Sample.alice) (Some "blockhash") in
      let asked :=
        [Call_validateAddress Sample.systemProgram;
         Call_validateAmount "0.01";
         Call_transfer Sample.alice Sample.systemKey (toLamports "0.01");
         Call_getLatestBlockhash;
         Call_signTransaction tx] in
      trace_of (sendTransaction Sample.declined Sample.ready) = asked
      /\ trace_of (sendTransaction Sample.happy Sample.ready)
         = (asked ++ [Call_sendRawTransaction Sample.signedBytes;
                      Call_confirmTransaction "sig" "blockhash" 100])%list).
Proof.
  assert (Hw : wallet Sample.ready = Some Sample.alice) by reflexivity.
  assert (Ha : new_PublicKey (receiverAddress Sample.ready)
               = Returns Sample.systemKey) by (vm_compute; reflexivity).
  assert (Hv : amountIsValid (amount Sample.ready) = true)
    by (vm_compute; reflexivity).
  assert (Hix : SystemProgram_transfer Sample.alice Sample.systemKey
                  (toLamports (amount Sample.ready))
                = Returns (mkTransfer Sample.alice Sample.systemKey 10000000))
    by (vm_compute; reflexivity).
  split; [exact Hw|]. split; [exact Ha|]. split; [exact Hv|].
  intros ix tx asked. split.
  - destruct (sendTransaction_call_order Sample.declined Sample.ready
                Sample.alice Sample.systemKey Hw Ha Hv) as [_ [H _]].
    destruct (H ix Hix) as [_ H1].
    destruct (H1 "blockhash" 100 eq_refl) as [H2 _].
    exact (H2 (Some "User rejected the request.") eq_refl).
  - destruct (sendTransaction_call_order Sample.happy Sample.ready
                Sample.alice Sample.systemKey Hw Ha Hv) as [_ [H _]].
    destruct (H ix Hix) as [_ H1].
    destruct (H1 "blockhash" 100 eq_refl) as [_ H2].
    destruct (H2 (mkSigned (Returns Sample.signedBytes)) eq_refl) as [_ H3].
    destruct (H3 Sample.signedBytes eq_refl) as [_ H4].
    exact (H4 "sig" eq_refl).
Defined.

Lemma sendTransaction_without_wallet_witness :
  wallet (@initialState web3) = None
  /\ state_of (sendTransaction Sample.happy initialState)
     = mkState "" "0.01" "" None false "Please connect your wallet first."
               true true
  /\ trace_of (sendTransaction Sample.happy initialState) = [].
Proof.
  split; [reflexivity|].
  pose proof (sendTransaction_without_wallet Sample.happy initialState
                eq_refl) as H.
  cbv zeta in H. split; [|apply H].
  destruct (state_of (sendTransaction Sample.happy initialState)).
  cbn in H. decompose [and] H. subst. reflexivity.
Defined.

Lemma sendTransaction_validation_order_witness :
  wallet Sample.justConnected = Some Sample.alice
  /\ new_PublicKey (receiverAddress Sample.justConnected)
     = Throws (Some "Invalid public key input")
  /\ error (state_of (sendTransaction Sample.happy Sample.justConnected))
     = "Invalid receiver address."
  /\ trace_of (sendTransaction Sample.happy Sample.justConnected)
     = [Call_validateAddress ""]
  /\ amountIsValid (amount (Sample.readyWith "0")) = false
  /\ error (state_of (sendTransaction Sample.happy (Sample.readyWith "0")))
     = "Invalid amount."
  /\ trace_of (sendTransaction Sample.happy (Sample.readyWith "0"))
     = [Call_validateAddress Sample.systemProgram; Call_validateAmount "0"].
Proof.
  assert (Ha : new_PublicKey (receiverAddress Sample.justConnected)
               = Throws (Some "Invalid public key input"))
    by (vm_compute; reflexivity).
  assert (Ha' : new_PublicKey (receiverAddress (Sample.readyWith "0"))
                = Returns Sample.systemKey) by (vm_compute; reflexivity).
  assert (Hv : amountIsValid (amount (Sample.readyWith "0")) = false)
    by (vm_compute; reflexivity).
  destruct (sendTransaction_validation_order Sample.happy
              Sample.justConnected Sample.alice eq_refl) as [H1 _].
  destruct (sendTransaction_validation_order Sample.happy
              (Sample.readyWith "0") Sample.alice eq_refl) as [_ H2].
  specialize (H1 _ Ha). specialize (H2 _ Ha' Hv). cbv zeta in H1, H2.
  split; [reflexivity|]. split; [exact Ha|].
  split; [apply H1|]. split; [apply H1|]. split; [exact Hv|].
  split; apply H2.
Defined.

Lemma submission_messages_witness :
  wallet Sample.ready = Some Sample.alice
  /\ new_PublicKey (receiverAddress Sample.ready) = Returns Sample.systemKey
  /\ amountIsValid (amount Sample.ready) = true
  /\ error (state_of (sendTransaction Sample.happy Sample.ready)) = ""
  /\ confirmation (state_of (sendTransaction Sample.happy Sample.ready))
     = successPrefix ++ "sig"
  /\ confirmation (state_of (sendTransaction Sample.declined Sample.ready))
     = "".
Proof.
  assert (Hw : wallet Sample.ready = Some Sample.alice) by reflexivity.
  assert (Ha : new_PublicKey (receiverAddress Sample.ready)
               = Returns Sample.systemKey) by (vm_compute; reflexivity).
  assert (Hv : amountIsValid (amount Sample.ready) = true)
    by (vm_compute; reflexivity).
  split; [exact Hw|]. split; [exact Ha|]. split; [exact Hv|].
  destruct (submission_messages Sample.happy Sample.ready Sample.alice
              Sample.systemKey Hw Ha Hv) as [_ [_ H]].
  destruct (submission_messages Sample.declined Sample.ready Sample.alice
              Sample.systemKey Hw Ha Hv) as [_ [H' _]].
  assert (Hhappy :
            error (state_of (sendTransaction Sample.happy Sample.ready)) = ""
            /\ confirmation (state_of (sendTransaction Sample.happy
                                                       Sample.ready))
               = successPrefix ++ "sig").
  { apply (H "sig" "blockhash" 100).
    - vm_compute. tauto.
    - reflexivity. }
  split; [apply Hhappy|]. split; [apply Hhappy|].
  apply H'. intros s b h Hin. vm_compute in Hin.
  repeat (destruct Hin as [Hin|Hin]; [discriminate Hin|]). exact Hin.
Defined.

(** Against C5 as stated: the page is mounted, the wallet connected, the
    address typed in and the transfer submitted; the node accepts it and
    the confirmation expires. The state reached shows an error and a
    confirmation message at once. *)
Lemma both_messages_counterexample :
  let st := state_of (sendTransaction Sample.expired Sample.ready) in
  reachable st
  /\ error st
     = "Transaction Failed: Signature sig has expired: block height exceeded."
  /\ confirmation st = "Transaction submitted..."
  /\ error st <> "" /\ confirmation st <> "".
Proof.
  split; [apply reach_send; [apply ready_reachable|reflexivity|reflexivity]|].
  vm_compute. repeat split; discriminate.
Qed.

(** Against C6 as stated: a submission with the address field empty fails
    with the invalid-address error; typing a valid address afterwards
    leaves that error in place. *)
Lemma edit_keeps_error_counterexample :
  let failed := state_of (sendTransaction Sample.happy Sample.justConnected) in
  let edited := state_of (handleAddressChange Sample.systemProgram failed) in
  error failed = "Invalid receiver address."
  /\ error edited = "Invalid receiver address."
  /\ ~ (error edited = "" /\ confirmation edited = "").
Proof.
  vm_compute. repeat split. intros [H _]. discriminate H.
Qed.

Lemma failure_classification_witness :
  wallet Sample.ready = Some Sample.alice
  /\ new_PublicKey (receiverAddress Sample.ready) = Returns Sample.systemKey
  /\ amountIsValid (amount Sample.ready) = true
  /\ outcome_of (sendBody Sample.declined Sample.alice
                   (receiverAddress Sample.ready) (amount Sample.ready)
                   (cleared Sample.ready))
     = Throws (Some "User rejected the request.")
  /\ error (state_of (sendTransaction Sample.declined Sample.ready))
     = "Transaction was rejected by the user.".
Proof.
  assert (Hw : wallet Sample.ready = Some Sample.alice) by reflexivity.
  assert (Ha : new_PublicKey (receiverAddress Sample.ready)
               = Returns Sample.systemKey) by (vm_compute; reflexivity).
  assert (Hv : amountIsValid (amount Sample.ready) = true)
    by (vm_compute; reflexivity).
  assert (Ht : outcome_of (sendBody Sample.declined Sample.alice
                   (receiverAddress Sample.ready) (amount Sample.ready)
                   (cleared Sample.ready))
               = Throws (Some "User rejected the request."))
    by (vm_compute; reflexivity).
  split; [exact Hw|]. split; [exact Ha|]. split; [exact Hv|].
  split; [exact Ht|].
  destruct (failure_classification Sample.declined Sample.ready Sample.alice
              Sample.systemKey "User rejected the request." Hw Ha Hv Ht)
    as [_ [_ [H _]]].
  apply H; vm_compute; reflexivity.
Defined.

(** Against C7 as stated: the node refuses the broadcast with the message
    "invalid address", which holds neither "insufficient funds" nor
    "User rejected"; the error shown is not the generic one with the raw
    message appended. *)
Lemma invalid_address_message_counterexample :
  let m := "invalid address" in
  let st := state_of (sendTransaction (Sample.refused m) Sample.ready) in
  JS.includes "insufficient funds" m = false
  /\ JS.includes "User rejected" m = false
  /\ error st = "Invalid wallet address."
  /\ error st <> "Transaction Failed: " ++ m.
Proof.
  vm_compute. repeat split. discriminate.
Qed.

Lemma confirmation_failure_witness :
  confirmTransaction Sample.expired "sig" "blockhash" 100
  = Throws (Some (Sample.expiredMessage "sig"))
  /\ (let st := state_of (sendTransaction Sample.expired Sample.ready) in
      confirmation st = "Transaction submitted..."
      /\ confirmation st <> successPrefix ++ "sig"
      /\ isLoading st = false
      /\ error st <> ""
      /\ error st = "Transaction Failed: " ++ Sample.expiredMessage "sig").
Proof.
  split; [reflexivity|].
  assert (Ha : new_PublicKey (receiverAddress Sample.ready)
               = Returns Sample.systemKey) by (vm_compute; reflexivity).
  assert (Hv : amountIsValid (amount Sample.ready) = true)
    by (vm_compute; reflexivity).
  assert (Hix : SystemProgram_transfer Sample.alice Sample.systemKey
                  (toLamports (amount Sample.ready))
                = Returns (mkTransfer Sample.alice Sample.systemKey 10000000))
    by (vm_compute; reflexivity).
  destruct (confirmation_failure Sample.expired Sample.ready Sample.alice
              Sample.systemKey (mkTransfer Sample.alice Sample.systemKey 10000000)
              "blockhash" 100 (mkSigned (Returns Sample.signedBytes))
              Sample.signedBytes "sig" (Sample.expiredMessage "sig")
              eq_refl Ha Hv Hix eq_refl eq_refl eq_refl eq_refl eq_refl)
    as [H1 [H2 [H3 [H4 H5]]]].
  split; [exact H1|]. split; [exact H2|]. split; [exact H3|].
  split; [exact H4|]. apply H5; vm_compute; reflexivity.
Defined.

(** Against C8 as stated: when the confirmation expires after an accepted
    broadcast, the error shown is the generic "Transaction Failed: " with
    the raw message, the very form an unrelated failure of the confirmation
    gets; the code has no failure of its own for the expiry. *)
Lemma expiry_is_generic_failure_counterexample :
  let st := state_of (sendTransaction Sample.expired Sample.ready) in
  let other :=
    state_of (sendTransaction (Sample.unconfirmed "Network request failed")
                              Sample.ready) in
  error st = "Transaction Failed: " ++ Sample.expiredMessage "sig"
  /\ error other = "Transaction Failed: " ++ "Network request failed"
  /\ confirmation st = "Transaction submitted...".
Proof.
  vm_compute. repeat split.
Qed.

Lemma toLamports_of_valid_amount_witness :
  amountIsValid "0.01" = true
  /\ JS.mul (JS.parseFloat "0.01") JS.lit_1e9 <> JS.Infinity
  /\ exists N, 0 <= N /\ JS.to_Z (toLamports "0.01") = Some N.
Proof.
  assert (Hv : amountIsValid "0.01" = true) by (vm_compute; reflexivity).
  assert (Hp : JS.mul (JS.parseFloat "0.01") JS.lit_1e9 <> JS.Infinity)
    by (vm_compute; discriminate).
  split; [exact Hv|]. split; [exact Hp|].
  exact (proj2 (toLamports_of_valid_amount "0.01" Hv) Hp).
Defined.

(** Against C4 as stated: the amount "1e301" is judged valid and its
    conversion is no integer count at all. And where the count is an
    integer it is the one closest to the binary64 product, not to the
    parsed value times 10^9: "0.0000000015" parses to
    7253554917687775 * 2^-82, which is below 1.5e-9, so that the parsed
    value times 10^9 lies below 3/2 and rounds to 1, while the product
    computed in binary64 is 1.5 and the conversion is 2. *)
Lemma integer_count_counterexample :
  (amountIsValid "1e301" = true
   /\ forall N, JS.to_Z (toLamports "1e301") <> Some N)
  /\ (amountIsValid "0.0000000015" = true
      /\ JS.parseFloat "0.0000000015"
         = S754_finite false 7253554917687775 (-82)
      /\ 2 * (7253554917687775 * 10 ^ 9) < (2 * 2 - 1) * 2 ^ 82
      /\ JS.to_Z (toLamports "0.0000000015") = Some 2).
Proof.
  split; [split|split; [|split; [|split]]].
  - vm_compute. reflexivity.
  - intros N. vm_compute. discriminate.
  - vm_compute. reflexivity.
  - vm_compute. reflexivity.
  - vm_compute. reflexivity.
  - vm_compute. reflexivity.
Qed.

(** Against C9 as stated: the amount "1e300" is judged valid and its
    conversion is +Infinity, which is no integer count. *)
Lemma overflow_counterexample :
  amountIsValid "1e300" = true
  /\ toLamports "1e300" = JS.Infinity
  /\ JS.to_Z (toLamports "1e300") = None.
Proof.
  vm_compute. repeat split.
Qed.

End Scenarios.

(** ** The wallet connection *)

Section Connection.

Context {W : Web3}.

(** The silent connection of the mount (lines 34-49) never shows
    anything: it leaves every cell but the wallet as it was, it asks the
    wallet agent at most once and only with [onlyIfTrusted], not at all
    when no agent is installed, and it stores a wallet only when the agent
    resolves with a public key. Its promise resolves, except when the agent
    rejects with null or undefined: then the [catch] block fails on
    [err.message] (line 43), still without touching the state. *)
Theorem checkIfWalletIsConnected_silent (w : World) (st : State) :
  let r := checkIfWalletIsConnected w st in
  trace_of r = (if isPhantom w then [Call_connect true] else [])
  /\ error (state_of r) = error st
  /\ confirmation (state_of r) = confirmation st
  /\ isLoading (state_of r) = isLoading st
  /\ receiverAddress (state_of r) = receiverAddress st
  /\ amount (state_of r) = amount st
  /\ isAddressValid (state_of r) = isAddressValid st
  /\ isAmountValid (state_of r) = isAmountValid st
  /\ (wallet (state_of r) = wallet st
      \/ exists response pk,
          isPhantom w = true
          /\ connect w true = Resolved response
          /\ publicKey response = Some pk
          /\ wallet (state_of r) = Some pk)
  /\ (forall response pk,
        isPhantom w = true ->
        connect w true = Resolved response ->
        publicKey response = Some pk ->
        wallet (state_of r) = Some pk)
  /\ (outcome_of r = Returns tt
      <-> ~ (isPhantom w = true
             /\ (connect w true = Rejected thrown_null
                 \/ connect w true = Rejected thrown_undefined))).
Proof.
  unfold_handlers. destruct (isPhantom w) eqn:Hp; cbn.
  - destruct (connect w true) as [response|[| |m]] eqn:Hc; cbn.
    + destruct (publicKey response) as [pk|] eqn:Hk; cbn;
        repeat (split; [reflexivity|]); (split; [|split]).
      * right. exists response, pk. auto.
      * intros response' pk' _ Hr Hk'. congruence.
      * split; [intros _ [_ [H|H]]; discriminate H|reflexivity].
      * left. reflexivity.
      * intros response' pk' _ Hr Hk'. congruence.
      * split; [intros _ [_ [H|H]]; discriminate H|reflexivity].
    + repeat (split; [reflexivity|]). split; [left; reflexivity|].
      split; [intros response pk _ Hr; discriminate Hr|].
      split; [discriminate|]. intros H. exfalso. apply H. auto.
    + repeat (split; [reflexivity|]). split; [left; reflexivity|].
      split; [intros response pk _ Hr; discriminate Hr|].
      split; [discriminate|]. intros H. exfalso. apply H. auto.
    + repeat (split; [reflexivity|]). split; [left; reflexivity|].
      split; [intros response pk _ Hr; discriminate Hr|].
      split; [intros _ [_ [H|H]]; discriminate H|reflexivity].
  - repeat (split; [reflexivity|]). split; [left; reflexivity|].
    split; [intros response pk Hf; discriminate Hf|].
    split; [intros _ [H _]; discriminate H|reflexivity].
Qed.

(** Without a wallet agent a click on the connect button (lines 52-55)
    only shows where to get one: no call is made, the busy flag is not
    raised and no other cell changes. *)
Theorem connectWallet_without_agent (w : World) (st : State) :
  isPhantom w = false ->
  let r := connectWallet w st in
  outcome_of r = Returns tt
  /\ trace_of r = []
  /\ error (state_of r)
     = "Phantom wallet not installed. Get it from https://phantom.app/"
  /\ wallet (state_of r) = wallet st
  /\ isLoading (state_of r) = isLoading st
  /\ confirmation (state_of r) = confirmation st
  /\ receiverAddress (state_of r) = receiverAddress st
  /\ amount (state_of r) = amount st
  /\ isAddressValid (state_of r) = isAddressValid st
  /\ isAmountValid (state_of r) = isAmountValid st.
Proof.
  intros Hp. unfold connectWallet. rewrite Hp. cbn. repeat split.
Qed.


End Connection.

(** ** Every run of the submission *)

Ltac past_guards Hw Ha Hv :=
  rewrite (sendTransaction_past_guards _ _ _ _ Hw Ha Hv);
  unfold_handlers; rewrite Ha; cbn; repeat case_outcome.

Section EveryRun.

Context {W : Web3}.

(** A run is stopped by one of the three guards or enters the [try]
    block. *)
Lemma sendTransaction_guards (w : World) (st : State) :
  (wallet st = None
   /\ sendTransaction w st
      = (Returns tt,
         mkState (receiverAddress st) (amount st) (confirmation st)
                 (wallet st) (isLoading st)
                 "Please connect your wallet first."
                 (isAddressValid st) (isAmountValid st),
         []))
  \/ (exists sender m,
        wallet st = Some sender
        /\ new_PublicKey (receiverAddress st) = Throws m
        /\ sendTransaction w st
           = (Returns tt,
              mkState (receiverAddress st) (amount st) (confirmation st)
                      (wallet st) (isLoading st)
                      "Invalid receiver address." false (isAmountValid st),
              [Call_validateAddress (receiverAddress st)]))
  \/ (exists sender pk,
        wallet st = Some sender
        /\ new_PublicKey (receiverAddress st) = Returns pk
        /\ amountIsValid (amount st) = false
        /\ sendTransaction w st
           = (Returns tt,
              mkState (receiverAddress st) (amount st) (confirmation st)
                      (wallet st) (isLoading st)
                      "Invalid amount." true false,
              [Call_validateAddress (receiverAddress st);
               Call_validateAmount (amount st)]))
  \/ (exists sender pk,
        wallet st = Some sender
        /\ new_PublicKey (receiverAddress st) = Returns pk
        /\ amountIsValid (amount st) = true).
Proof.
  destruct (wallet st) as [sender|] eqn:Hw.
  - destruct (new_PublicKey (receiverAddress st)) as [pk|m] eqn:Ha.
    + destruct (amountIsValid (amount st)) eqn:Hv.
      * right. right. right. exists sender, pk. auto.
      * right. right. left. exists sender, pk.
        repeat (split; [reflexivity|]).
        unfold sendTransaction. rewrite Hw. unfold bind at 1.
        rewrite (validateAddress_accepts _ pk) by exact Ha.
        unfold_handlers. cbn. rewrite Hv. cbn. rewrite ?Hw; reflexivity.
    + right. left. exists sender, m. repeat (split; [reflexivity|]).
      unfold sendTransaction. rewrite Hw. unfold bind at 1.
      rewrite (validateAddress_refuses _ m) by exact Ha.
      cbn. rewrite ?Hw; reflexivity.
  - left. split; [reflexivity|].
    unfold sendTransaction. rewrite Hw. unfold_handlers. cbn.
    rewrite ?Hw; reflexivity.
Qed.

(** Whatever happens, a submission (lines 99-158) leaves the wallet and
    the two input texts as they were. *)
Theorem sendTransaction_keeps_inputs (w : World) (st : State) :
  let st' := state_of (sendTransaction w st) in
  wallet st' = wallet st
  /\ receiverAddress st' = receiverAddress st
  /\ amount st' = amount st.
Proof.
  destruct (sendTransaction_guards w st)
    as [[Hw E]|[(sender & m & Hw & Ha & E)|[(sender & pk & Hw & Ha & Hv & E)
       |(sender & pk & Hw & Ha & Hv)]]];
    try (rewrite E; cbn; repeat split; fail).
  past_guards Hw Ha Hv; repeat split.
Qed.

(** In every run, stopped by a guard or not, the calls are an initial
    part of the sequence validate address, validate amount, build, fetch
    the blockhash, sign, broadcast, confirm: no call is made twice (nothing
    is retried) and the wallet is never asked to connect. Any call beyond
    the two validators means that a wallet was connected and that both
    inputs were valid. *)
Theorem sendTransaction_calls_in_every_run (w : World) (st : State) :
  let tr := trace_of (sendTransaction w st) in
  map phase tr = seq 0 (List.length tr)
  /\ (List.length tr <= 7)%nat
  /\ (forall e, In e tr -> (2 <= phase e)%nat ->
        exists sender pk,
          wallet st = Some sender
          /\ new_PublicKey (receiverAddress st) = Returns pk
          /\ amountIsValid (amount st) = true).
Proof.
  destruct (sendTransaction_guards w st)
    as [[Hw E]|[(sender & m & Hw & Ha & E)|[(sender & pk & Hw & Ha & Hv & E)
       |(sender & pk & Hw & Ha & Hv)]]].
  - rewrite E. cbn. split; [reflexivity|split; [lia|]]. intros e [].
  - rewrite E. cbn. split; [reflexivity|split; [lia|]].
    intros e [<-|[]] Hp. cbn in Hp. lia.
  - rewrite E. cbn. split; [reflexivity|split; [lia|]].
    intros e [<-|[<-|[]]] Hp; cbn in Hp; lia.
  - cbv zeta. split; [|split].
    + past_guards Hw Ha Hv; reflexivity.
    + past_guards Hw Ha Hv; cbn; lia.
    + intros e _ _. exists sender, pk. auto.
Qed.

(** The promise of a submission rejects in one way only: when a step
    throws a value without a message and the [catch] block fails on
    [err.message.includes]. Even then the busy flag has been released; no
    error message is shown. *)
Theorem sendTransaction_rejects_only_in_catch (w : World) (st : State)
        (e : option string) :
  outcome_of (sendTransaction w st) = Throws e ->
  e = Some "Cannot read properties of undefined (reading 'includes')"
  /\ isLoading (state_of (sendTransaction w st)) = false
  /\ error (state_of (sendTransaction w st)) = "".
Proof.
  destruct (sendTransaction_guards w st)
    as [[Hw E]|[(sender & m & Hw & Ha & E)|[(sender & pk & Hw & Ha & Hv & E)
       |(sender & pk & Hw & Ha & Hv)]]];
    try (rewrite E; cbn; intros H; discriminate H).
  past_guards Hw Ha Hv; intros H; try discriminate H;
    injection H as <-; repeat split.
Qed.

(** After a submission with a wallet connected the submit button is
    enabled exactly when both inputs are valid: the run has re-evaluated
    both flags (also over an empty field) and released the busy flag. *)
Theorem submit_enabled_after_submission (w : World) (st : State)
        (sender : PublicKey) :
  wallet st = Some sender ->
  submitDisabled (state_of (sendTransaction w st)) = false
  <-> ((exists pk, new_PublicKey (receiverAddress st) = Returns pk)
       /\ amountIsValid (amount st) = true).
Proof.
  intros Hs.
  destruct (sendTransaction_guards w st)
    as [[Hw E]|[(sender' & m & Hw & Ha & E)
       |[(sender' & pk & Hw & Ha & Hv & E)|(sender' & pk & Hw & Ha & Hv)]]].
  - congruence.
  - rewrite E. unfold submitDisabled, state_of. cbn.
    rewrite orb_true_r. split; [discriminate|].
    intros [[pk Hpk] _]. congruence.
  - rewrite E. unfold submitDisabled, state_of. cbn.
    rewrite orb_true_r. split; [discriminate|].
    intros [_ Hv']. congruence.
  - split; [intros _; split; [exists pk; exact Ha|exact Hv]|intros _].
    past_guards Hw Ha Hv; reflexivity.
Qed.

(** A submission that has passed the guards shows the success message
    only for a transaction whose confirmation the node has acknowledged:
    if the confirmation text ends the run as the success text for [s], then
    [confirmTransaction] was called for the signature [s] and resolved, and
    no error is shown. *)
Theorem success_message_means_confirmed (w : World) (st : State)
        (sender pk : PublicKey) (s : string) :
  wallet st = Some sender ->
  new_PublicKey (receiverAddress st) = Returns pk ->
  amountIsValid (amount st) = true ->
  confirmation (state_of (sendTransaction w st)) = successPrefix ++ s ->
  error (state_of (sendTransaction w st)) = ""
  /\ outcome_of (sendTransaction w st) = Returns tt
  /\ exists blockhash height,
      In (Call_confirmTransaction s blockhash height)
         (trace_of (sendTransaction w st))
      /\ confirmTransaction w s blockhash height = Returns tt.
Proof.
  intros Hw Ha Hv.
  past_guards Hw Ha Hv; intros H; cbv in H; try discriminate H.
  injection H as <-. split; [reflexivity|]. split; [reflexivity|].
  match goal with
  | Hc : confirmTransaction w ?sg ?bh ?hh = Returns tt |- _ =>
      exists bh, hh; split; [cbn; tauto|exact Hc]
  end.
Qed.

End EveryRun.

(** ** What holds in every state the user can reach *)

Section Reachable.

Context {W : Web3}.

Lemma handleAddressChange_state (s : string) (st : State) :
  state_of (handleAddressChange s st)
  = mkState s (amount st) (confirmation st) (wallet st) (isLoading st)
            (error st)
            (if String.eqb s "" then isAddressValid st
             else match new_PublicKey s with
                  | Returns _ => true
                  | Throws _ => false
                  end)
            (isAmountValid st).
Proof.
  unfold_handlers. cbn. destruct (String.eqb s ""); cbn; [reflexivity|].
  destruct (new_PublicKey s); reflexivity.
Qed.

Lemma handleAmountChange_state (s : string) (st : State) :
  state_of (handleAmountChange s st)
  = mkState (receiverAddress st) s (confirmation st) (wallet st)
            (isLoading st) (error st) (isAddressValid st)
            (if String.eqb s "" then isAmountValid st else amountIsValid s).
Proof.
  unfold_handlers. cbn. destruct (String.eqb s ""); reflexivity.
Qed.

(** The cells the two connection handlers leave alone. *)
Lemma connection_keeps_form (w : World) (st st' : State) :
  st' = state_of (checkIfWalletIsConnected w st)
  \/ st' = state_of (connectWallet w st) ->
  receiverAddress st' = receiverAddress st
  /\ amount st' = amount st
  /\ confirmation st' = confirmation st
  /\ isAddressValid st' = isAddressValid st
  /\ isAmountValid st' = isAmountValid st
  /\ (isLoading st = false -> isLoading st' = false).
Proof.
  intros [-> | ->]; unfold_handlers; destruct (isPhantom w); cbn;
    try (repeat split; auto; fail).
  - destruct (connect w true) as [response|[| |m]]; cbn;
      [destruct (publicKey response); cbn| | |]; repeat split; auto.
  - destruct (connect w false) as [response|[| |m]]; cbn;
      repeat split; auto.
Qed.

(** The cells of a run that has passed the guards. *)
Lemma sendTransaction_passed_cells (w : World) (st : State)
      (sender pk : PublicKey) :
  wallet st = Some sender ->
  new_PublicKey (receiverAddress st) = Returns pk ->
  amountIsValid (amount st) = true ->
  let st' := state_of (sendTransaction w st) in
  wallet st' = wallet st
  /\ receiverAddress st' = receiverAddress st
  /\ amount st' = amount st
  /\ isAddressValid st' = true
  /\ isAmountValid st' = true
  /\ isLoading st' = false.
Proof.
  intros Hw Ha Hv. past_guards Hw Ha Hv; repeat split.
Qed.

Lemma flags_sound_address (s : string) (st : State) :
  flags_sound st -> flags_sound (state_of (handleAddressChange s st)).
Proof.
  intros (H1 & H2 & H3 & H4). rewrite handleAddressChange_state.
  unfold flags_sound. cbn.
  destruct (String.eqb s "") eqn:E.
  - apply String.eqb_eq in E. subst s. repeat split; auto.
  - destruct (new_PublicKey s) as [pk|m] eqn:Ha;
      repeat split; auto; intros; try discriminate; right; eauto.
Qed.

Lemma flags_sound_amount (s : string) (st : State) :
  flags_sound st -> flags_sound (state_of (handleAmountChange s st)).
Proof.
  intros (H1 & H2 & H3 & H4). rewrite handleAmountChange_state.
  unfold flags_sound. cbn.
  destruct (String.eqb s "") eqn:E.
  - apply String.eqb_eq in E. subst s. repeat split; auto.
  - repeat split; auto.
Qed.

Lemma flags_sound_sendTransaction (w : World) (st : State) :
  flags_sound st -> flags_sound (state_of (sendTransaction w st)).
Proof.
  intros (H1 & H2 & H3 & H4).
  destruct (sendTransaction_guards w st)
    as [[Hw E]|[(sender & m & Hw & Ha & E)|[(sender & pk & Hw & Ha & Hv & E)
       |(sender & pk & Hw & Ha & Hv)]]].
  - rewrite E. unfold flags_sound. cbn. auto.
  - rewrite E. unfold flags_sound. cbn.
    repeat split; auto; intros; try discriminate; right; eauto.
  - rewrite E. unfold flags_sound. cbn.
    repeat split; auto; intros; try discriminate; right; eauto.
  - destruct (sendTransaction_passed_cells w st sender pk Hw Ha Hv)
      as (_ & Er & Em & Fa & Fm & _).
    unfold flags_sound. rewrite Er, Em, Fa, Fm.
    repeat split; intros; try discriminate; right; eauto.
Qed.

(** Between two actions of the user the busy flag is down: every handler
    that raises it releases it before it ends. *)
Theorem reachable_not_loading (st : State) :
  reachable st -> isLoading st = false.
Proof.
  induction 1 as [w|w st Hr IH Hc Hl|s st Hr IH Hc|s st Hr IH Hc
                 |w st Hr IH Hc Hd].
  - apply (connection_keeps_form w initialState); [left|]; reflexivity.
  - apply (connection_keeps_form w st); [right; reflexivity|exact IH].
  - rewrite handleAddressChange_state. exact IH.
  - rewrite handleAmountChange_state. exact IH.
  - destruct (sendTransaction_guards w st)
      as [[Hw E]|[(sender & m & Hw & Ha & E)
         |[(sender & pk & Hw & Ha & Hv & E)|(sender & pk & Hw & Ha & Hv)]]];
      try (rewrite E; exact IH).
    apply (sendTransaction_passed_cells w st sender pk Hw Ha Hv).
Qed.

Lemma flags_sound_initial : flags_sound initialState.
Proof.
  unfold flags_sound. cbn. repeat split; intros; try discriminate; auto.
Qed.

Lemma flags_sound_connection (w : World) (st st' : State) :
  st' = state_of (checkIfWalletIsConnected w st)
  \/ st' = state_of (connectWallet w st) ->
  flags_sound st -> flags_sound st'.
Proof.
  intros H Hs.
  destruct (connection_keeps_form w st st' H) as (E1 & E2 & _ & E3 & E4 & _).
  unfold flags_sound in *. rewrite E1, E2, E3, E4. exact Hs.
Qed.

(** In every state the user can reach the validity flags tell the truth
    about a field that is not empty: a flag that is up stands over an empty
    field or a text the validator accepts, a flag that is down over an
    empty field or a text the validator refuses (for the amount: always a
    text it refuses). *)
Theorem reachable_flags_sound (st : State) :
  reachable st -> flags_sound st.
Proof.
  induction 1 as [w|w st Hr IH Hc Hl|s st Hr IH Hc|s st Hr IH Hc
                 |w st Hr IH Hc Hd].
  - apply (flags_sound_connection w initialState);
      [left; reflexivity|apply flags_sound_initial].
  - apply (flags_sound_connection w st); [right; reflexivity|exact IH].
  - apply flags_sound_address, IH.
  - apply flags_sound_amount, IH.
  - apply flags_sound_sendTransaction, IH.
Qed.

(** Until a wallet is connected the form is the one of the first render:
    the fields and the submit button are not on the page (line 167), so
    the address is empty, the amount is "0.01", both flags are up and no
    confirmation message has been set. *)
Theorem reachable_without_wallet_pristine (st : State) :
  reachable st -> connected st = false -> pristine st.
Proof.
  assert (Hconn : forall w st st',
             st' = state_of (checkIfWalletIsConnected w st)
             \/ st' = state_of (connectWallet w st) ->
             pristine st -> pristine st').
  { intros w st0 st' H Hs.
    destruct (connection_keeps_form w st0 st' H) as (E1 & E2 & E3 & E4 & E5 & _).
    unfold pristine in *. rewrite E1, E2, E3, E4, E5. exact Hs. }
  induction 1 as [w|w st Hr IH Hc Hl|s st Hr IH Hc|s st Hr IH Hc
                 |w st Hr IH Hc Hd]; intros Hn.
  - apply (Hconn w initialState); [left; reflexivity|].
    unfold pristine. cbn. repeat split.
  - apply (Hconn w st); [right; reflexivity|exact (IH Hc)].
  - rewrite handleAddressChange_state in Hn.
    unfold connected in *. cbn in Hn. congruence.
  - rewrite handleAmountChange_state in Hn.
    unfold connected in *. cbn in Hn. congruence.
  - exfalso. unfold connected in *.
    destruct (wallet st) as [sender|] eqn:Hw; [|discriminate Hc].
    destruct (sendTransaction_guards w st)
      as [[Hw' E]|[(sender' & m & Hw' & Ha & E)
         |[(sender' & pk & Hw' & Ha & Hv & E)
          |(sender' & pk & Hw' & Ha & Hv)]]].
    + congruence.
    + rewrite E in Hn. cbn in Hn. rewrite Hw in Hn. discriminate Hn.
    + rewrite E in Hn. cbn in Hn. rewrite Hw in Hn. discriminate Hn.
    + destruct (sendTransaction_passed_cells w st sender' pk Hw' Ha Hv)
        as (Ew & _).
      rewrite Ew, Hw in Hn. discriminate Hn.
Qed.

(** A click on the enabled submit button with both fields filled in
    always passes the three guards: the inputs are valid and the run goes
    on to build the transfer from the connected wallet to the typed
    address. *)
Theorem enabled_submit_enters_try (w : World) (st : State) :
  reachable st ->
  connected st = true ->
  submitDisabled st = false ->
  receiverAddress st <> "" ->
  amount st <> "" ->
  exists sender pk,
    wallet st = Some sender
    /\ new_PublicKey (receiverAddress st) = Returns pk
    /\ amountIsValid (amount st) = true
    /\ In (Call_transfer sender pk (toLamports (amount st)))
          (trace_of (sendTransaction w st)).
Proof.
  intros Hr Hc Hd Hra Ham.
  assert (Hs : flags_sound st).
  { clear - Hr.
    induction Hr as [w|w st Hr IH Hc Hl|s st Hr IH Hc|s st Hr IH Hc
                    |w st Hr IH Hc Hd].
    - apply (flags_sound_connection w initialState);
        [left; reflexivity|apply flags_sound_initial].
    - apply (flags_sound_connection w st); [right; reflexivity|exact IH].
    - apply flags_sound_address, IH.
    - apply flags_sound_amount, IH.
    - apply flags_sound_sendTransaction, IH. }
  destruct Hs as (H1 & _ & H3 & _).
  unfold submitDisabled in Hd.
  apply orb_false_elim in Hd. destruct Hd as [Hd Hfm].
  apply orb_false_elim in Hd. destruct Hd as [_ Hfa].
  apply negb_false_iff in Hfa, Hfm.
  destruct (H1 Hfa) as [?|[pk Ha]]; [contradiction|].
  destruct (H3 Hfm) as [?|Hv]; [contradiction|].
  unfold connected in Hc.
  destruct (wallet st) as [sender|] eqn:Hw; [|discriminate Hc].
  exists sender, pk. repeat (split; [assumption|]).
  past_guards Hw Ha Hv; cbn; tauto.
Qed.

End Reachable.

(** ** The validators and the edits *)

Section Edits.

Context {W : Web3}.

Lemma digit_of_range (c : ascii) (d : Z) :
  JS.digit_of c = Some d -> 0 <= d <= 9.
Proof.
  unfold JS.digit_of.
  destruct ((48 <=? Z.of_nat (nat_of_ascii c))
            && (Z.of_nat (nat_of_ascii c) <=? 57))%bool eqn:E;
    [|discriminate].
  apply andb_true_iff in E. destruct E as [E1 E2].
  apply Z.leb_le in E1, E2. intros H. injection H as <-. lia.
Qed.

Lemma digits_nonneg (s : string) (acc cnt : Z) :
  0 <= acc -> 0 <= fst (fst (JS.digits acc cnt s)).
Proof.
  revert acc cnt.
  induction s as [|c s IH]; intros acc cnt Hacc; cbn [JS.digits].
  - exact Hacc.
  - destruct (JS.digit_of c) as [d|] eqn:E; [|exact Hacc].
    apply IH. pose proof (digit_of_range c d E). lia.
Qed.

Lemma unsigned_literal_nonneg (s : string) (m e : Z) :
  JS.unsigned_literal s = Some (JS.LitDecimal m e) -> 0 <= m.
Proof.
  unfold JS.unsigned_literal. destruct (prefix "Infinity" s); [discriminate|].
  pose proof (digits_nonneg s 0 0 (Z.le_refl 0)) as H0.
  destruct (JS.digits 0 0 s) as [[ip icnt] s1]. cbn in H0.
  assert (Hplain : (if icnt =? 0 then None
                    else let '(ex, _) := JS.exponent_part s1 in
                         Some (JS.LitDecimal ip ex))
                   = Some (JS.LitDecimal m e) -> 0 <= m).
  { destruct (icnt =? 0); [discriminate|].
    destruct (JS.exponent_part s1). intros H. injection H as <- _.
    exact H0. }
  destruct s1 as [|c s2]; [exact Hplain|].
  destruct (Ascii.eqb c ".") eqn:Ec.
  - apply Ascii.eqb_eq in Ec. subst c.
    pose proof (digits_nonneg s2 ip 0 H0) as H1.
    destruct (JS.digits ip 0 s2) as [[m' fcnt] s3]. cbn in H1.
    destruct ((icnt =? 0) && (fcnt =? 0))%bool; [discriminate|].
    destruct (JS.exponent_part s3). intros H. injection H as <- _.
    exact H1.
  - destruct c as [[|] [|] [|] [|] [|] [|] [|] [|]];
      try discriminate Ec; exact Hplain.
Qed.

Lemma binary_round_rounded (s : bool) (m : positive) (e : Z) :
  rounded s (binary_round JS.prec JS.emax s m e).
Proof.
  unfold binary_round.
  destruct (shl_align m e _) as [mz ez].
  apply binary_round_aux_rounded. lia.
Qed.

(** A decimal literal rounds to a number of the sign it was read with. *)
Lemma round_decimal_rounded (sgn : bool) (m e : Z) :
  0 <= m -> rounded sgn (JS.round_decimal sgn m e).
Proof.
  intros Hm. unfold JS.round_decimal.
  destruct (m =? 0) eqn:E0; [constructor|].
  apply Z.eqb_neq in E0.
  destruct (0 <=? e) eqn:Ee.
  - apply Z.leb_le in Ee.
    assert (Hp : 0 < m * 10 ^ e)
      by (apply Z.mul_pos_pos; [lia|apply Z.pow_pos_nonneg; lia]).
    destruct sgn.
    + destruct (- m * 10 ^ e) as [|p|p] eqn:Ep; try lia.
      cbn [binary_normalize]. apply binary_round_rounded.
    + destruct (m * 10 ^ e) as [|p|p] eqn:Ep; try lia.
      cbn [binary_normalize]. apply binary_round_rounded.
  - unfold SFdiv_core_binary.
    set (m' := match _ - _ - _ with
               | Z0 => m
               | Z.pos _ => Z.shiftl m _
               | Z.neg _ => 0
               end).
    assert (Hm' : 0 <= m').
    { subst m'. destruct (_ - _ - _); try lia. apply Z.shiftl_nonneg. lia. }
    pose proof (Z.div_pos m' (10 ^ (- e)) Hm') as Hq.
    unfold Z.div in Hq.
    destruct (Z.div_eucl m' (10 ^ (- e))) as [q r].
    apply binary_round_aux_rounded. apply Hq.
    apply Z.pow_pos_nonneg; [lia|]. apply Z.leb_gt in Ee. lia.
Qed.

Lemma rounded_negative_not_positive (x : JS.number) :
  rounded true x -> JS.gt x (S754_zero false) = false.
Proof. intros [| |m e _]; reflexivity. Qed.

(** No amount that starts with a minus sign is accepted, whatever
    follows the sign: [validateAmount] (lines 80-85) returns false and
    lowers the flag. *)
Theorem validateAmount_refuses_minus (s : string) (st : State) :
  let r := validateAmount ("-" ++ s) st in
  outcome_of r = Returns false
  /\ isAmountValid (state_of r) = false
  /\ amountIsValid ("-" ++ s) = false.
Proof.
  assert (H : amountIsValid ("-" ++ s) = false).
  { unfold amountIsValid, JS.parseFloat.
    change (JS.trim_start ("-" ++ s)) with (String "-" s). cbv iota beta.
    destruct (JS.unsigned_literal s) as [[|m e]|] eqn:E.
    - reflexivity.
    - rewrite (rounded_negative_not_positive _
                 (round_decimal_rounded true m e
                    (unsigned_literal_nonneg s m e E))).
      apply andb_false_r.
    - reflexivity. }
  unfold_handlers. cbn. rewrite H. repeat split.
Qed.

(** Edits of the two fields do not interfere: the order in which the
    address and the amount are edited does not matter. Within one field a
    non-empty edit erases every trace of the edits before it, while an
    edit to the empty text keeps the flag the earlier text had earned. *)
Theorem edits_compose (a b : string) (st : State) :
  state_of (handleAmountChange b (state_of (handleAddressChange a st)))
  = state_of (handleAddressChange a (state_of (handleAmountChange b st)))
  /\ (b <> "" ->
      state_of (handleAddressChange b (state_of (handleAddressChange a st)))
      = state_of (handleAddressChange b st))
  /\ (b <> "" ->
      state_of (handleAmountChange b (state_of (handleAmountChange a st)))
      = state_of (handleAmountChange b st))
  /\ isAddressValid
       (state_of (handleAddressChange "" (state_of (handleAddressChange a st))))
     = isAddressValid (state_of (handleAddressChange a st))
  /\ isAmountValid
       (state_of (handleAmountChange "" (state_of (handleAmountChange a st))))
     = isAmountValid (state_of (handleAmountChange a st)).
Proof.
  rewrite !handleAddressChange_state, !handleAmountChange_state. cbn.
  split; [reflexivity|]. split; [|split; [|split; reflexivity]].
  - intros Hb. apply String.eqb_neq in Hb. rewrite Hb. reflexivity.
  - intros Hb. apply String.eqb_neq in Hb. rewrite Hb. reflexivity.
Qed.

End Edits.

(** ** What flows from one call of a submission to the next *)

Section DataFlow.

Context {W : Web3}.

(** The transaction handed to the wallet consists of the one transfer
    instruction built from the connected wallet, the typed address and the
    converted amount, with the wallet as fee payer and the blockhash just
    fetched; and what is confirmed is the signature the broadcast returned,
    under the very blockhash and height that were fetched for signing. *)
Theorem submission_data_flow (w : World) (st : State) :
  let tr := trace_of (sendTransaction w st) in
  (forall tx,
      In (Call_signTransaction tx) tr ->
      exists sender pk ix blockhash height,
        wallet st = Some sender
        /\ new_PublicKey (receiverAddress st) = Returns pk
        /\ SystemProgram_transfer sender pk (toLamports (amount st))
           = Returns ix
        /\ getLatestBlockhash w = Returns (blockhash, height)
        /\ tx = mkTransaction [ix] (Some sender) (Some blockhash))
  /\ (forall s blockhash height,
      In (Call_confirmTransaction s blockhash height) tr ->
      getLatestBlockhash w = Returns (blockhash, height)
      /\ exists raw,
          In (Call_sendRawTransaction raw) tr
          /\ sendRawTransaction w raw = Returns s).
Proof.
  destruct (sendTransaction_guards w st)
    as [[Hw E]|[(sender & m & Hw & Ha & E)|[(sender & pk & Hw & Ha & Hv & E)
       |(sender & pk & Hw & Ha & Hv)]]];
    try (rewrite E; cbn; split; intros; trace_member; fail).
  cbv zeta. split.
  - past_guards Hw Ha Hv; intros tx Hin; trace_member;
      exists sender, pk; eauto 10.
  - past_guards Hw Ha Hv; intros sg bh hh Hin; trace_member;
      (split; [reflexivity|]); eexists; (split; [|eassumption]);
      cbn; tauto.
Qed.

End DataFlow.

(** ** The further properties on concrete inputs *)

Section MoreScenarios.

Import Bs58.

(** The way the user took to a sample state. *)
Ltac by_actions :=
  unfold Sample.ready, Sample.justConnected;
  repeat first [ apply reach_mount
               | apply reach_send
               | apply reach_address
               | apply reach_connect
               | reflexivity ].

Lemma connectWallet_without_agent_witness :
  isPhantom MoreSamples.noPhantom = false
  /\ error (state_of (connectWallet MoreSamples.noPhantom initialState))
     = "Phantom wallet not installed. Get it from https://phantom.app/"
  /\ trace_of (connectWallet MoreSamples.noPhantom initialState) = [].
Proof.
  split; [reflexivity|].
  pose proof (connectWallet_without_agent MoreSamples.noPhantom initialState
                eq_refl) as H.
  cbv zeta in H. split; apply H.
Defined.


Lemma sendTransaction_rejects_only_in_catch_witness :
  outcome_of (sendTransaction MoreSamples.messageless Sample.ready)
  = Throws (Some "Cannot read properties of undefined (reading 'includes')")
  /\ isLoading (state_of (sendTransaction MoreSamples.messageless
                                           Sample.ready)) = false
  /\ error (state_of (sendTransaction MoreSamples.messageless Sample.ready))
     = "".
Proof.
  assert (H : outcome_of (sendTransaction MoreSamples.messageless
                                          Sample.ready)
              = Throws (Some
                  "Cannot read properties of undefined (reading 'includes')"))
    by (vm_compute; reflexivity).
  split; [exact H|].
  apply (sendTransaction_rejects_only_in_catch _ _ _ H).
Defined.

Lemma submit_enabled_after_submission_witness :
  wallet Sample.justConnected = Some Sample.alice
  /\ submitDisabled Sample.justConnected = false
  /\ submitDisabled (state_of (sendTransaction Sample.happy
                                               Sample.justConnected))
     <> false.
Proof.
  split; [reflexivity|]. split; [reflexivity|].
  intros H.
  apply (submit_enabled_after_submission Sample.happy Sample.justConnected
           Sample.alice eq_refl) in H.
  destruct H as [[pk Hpk] _]. vm_compute in Hpk. discriminate Hpk.
Defined.

Lemma success_message_means_confirmed_witness :
  confirmation (state_of (sendTransaction Sample.happy Sample.ready))
  = successPrefix ++ "sig"
  /\ exists blockhash height,
      In (Call_confirmTransaction "sig" blockhash height)
         (trace_of (sendTransaction Sample.happy Sample.ready))
      /\ confirmTransaction Sample.happy "sig" blockhash height = Returns tt.
Proof.
  assert (Ha : new_PublicKey (receiverAddress Sample.ready)
               = Returns Sample.systemKey) by (vm_compute; reflexivity).
  assert (Hv : amountIsValid (amount Sample.ready) = true)
    by (vm_compute; reflexivity).
  assert (Hc : confirmation (state_of (sendTransaction Sample.happy
                                                       Sample.ready))
               = successPrefix ++ "sig") by (vm_compute; reflexivity).
  split; [exact Hc|].
  apply (success_message_means_confirmed Sample.happy Sample.ready
           Sample.alice Sample.systemKey "sig" eq_refl Ha Hv Hc).
Defined.

Lemma reachable_not_loading_witness :
  reachable (state_of (sendTransaction Sample.expired Sample.ready))
  /\ isLoading (state_of (sendTransaction Sample.expired Sample.ready))
     = false.
Proof.
  assert (H : reachable (state_of (sendTransaction Sample.expired
                                                   Sample.ready)))
    by by_actions.
  split; [exact H|]. exact (reachable_not_loading _ H).
Defined.

Lemma reachable_flags_sound_witness :
  reachable Sample.ready /\ flags_sound Sample.ready.
Proof.
  assert (H : reachable Sample.ready) by by_actions.
  split; [exact H|]. exact (reachable_flags_sound _ H).
Defined.

Lemma reachable_without_wallet_pristine_witness :
  reachable (state_of (checkIfWalletIsConnected Sample.happy initialState))
  /\ connected (state_of (checkIfWalletIsConnected Sample.happy initialState))
     = false
  /\ pristine (state_of (checkIfWalletIsConnected Sample.happy initialState)).
Proof.
  assert (H : reachable (state_of (checkIfWalletIsConnected Sample.happy
                                                            initialState)))
    by by_actions.
  split; [exact H|]. split; [reflexivity|].
  exact (reachable_without_wallet_pristine _ H eq_refl).
Defined.

Lemma enabled_submit_enters_try_witness :
  reachable Sample.ready
  /\ connected Sample.ready = true
  /\ submitDisabled Sample.ready = false
  /\ receiverAddress Sample.ready <> ""
  /\ amount Sample.ready <> ""
  /\ exists sender pk,
      In (Call_transfer sender pk (toLamports "0.01"))
         (trace_of (sendTransaction Sample.declined Sample.ready)).
Proof.
  assert (H1 : receiverAddress Sample.ready <> "")
    by (vm_compute; discriminate).
  assert (H2 : amount Sample.ready <> "") by (vm_compute; discriminate).
  assert (H : reachable Sample.ready) by by_actions.
  split; [exact H|]. split; [reflexivity|].
  split; [reflexivity|]. split; [exact H1|]. split; [exact H2|].
  destruct (enabled_submit_enters_try Sample.declined Sample.ready
              H eq_refl eq_refl H1 H2)
    as (sender & pk & _ & _ & _ & Hin).
  exists sender, pk. exact Hin.
Defined.

End MoreScenarios.
